(** * PyReact: the transpiler core of [pyreact.py], embedded in Rocq

    The Python class [PyReactTranspiler] walks the [ast] of a component class
    and emits JavaScript text.  This development embeds the syntax tree it
    reads, the methods that produce text and the two attributes the transpiler
    object mutates ([components] and [local_variables]), and then states the
    properties of the specification over them. *)

From Stdlib Require Import String Ascii List ZArith Bool Arith Lia DecimalString.
Import ListNotations.
Open Scope string_scope.

(* ================================================================= *)
(** ** Python built-ins used by the transpiler *)

(** [sep.join(parts)]. *)
Fixpoint join (sep : string) (parts : list string) : string :=
  match parts with
  | [] => ""
  | [p] => p
  | p :: rest => p ++ sep ++ join sep rest
  end.

(** [str(n)] for an [int]. *)
Definition str_int (n : Z) : string := NilZero.string_of_int (Z.to_int n).

(** [c in chars] for a one-character string [c]. *)
Fixpoint char_in (c : ascii) (chars : string) : bool :=
  match chars with
  | EmptyString => false
  | String d rest => Ascii.eqb c d || char_in c rest
  end.

(** [s.lstrip(chars)]. *)
Fixpoint lstrip (chars s : string) : string :=
  match s with
  | EmptyString => EmptyString
  | String c rest => if char_in c chars then lstrip chars rest else s
  end.

(** [s.rstrip(chars)]. *)
Fixpoint rstrip (chars s : string) : string :=
  match s with
  | EmptyString => EmptyString
  | String c rest =>
      match rstrip chars rest with
      | EmptyString => if char_in c chars then EmptyString else String c EmptyString
      | kept => String c kept
      end
  end.

(** [s.strip(chars)]. *)
Definition strip (chars s : string) : string := rstrip chars (lstrip chars s).

(** [s.lower()], on the ASCII letters (the transpiler lowers only the text of
    a [bool]). *)
Definition lower_ascii (c : ascii) : ascii :=
  let n := nat_of_ascii c in
  if (65 <=? n)%nat && (n <=? 90)%nat then ascii_of_nat (n + 32) else c.

Fixpoint lower (s : string) : string :=
  match s with
  | EmptyString => EmptyString
  | String c rest => String (lower_ascii c) (lower rest)
  end.

(** The characters passed to [strip] in [_transpile_function_call]: a double
    quote (code 34) followed by a single quote (code 39). *)
Definition dquote : string := String (ascii_of_nat 34) EmptyString.
Definition quote_chars : string :=
  String (ascii_of_nat 34) (String (ascii_of_nat 39) EmptyString).

(** *** Insertion-ordered dictionaries

    A Python [dict] keeps its keys in insertion order, and [d[k] = v] on a key
    that is present replaces the value where the key already stands (the key
    object first inserted is kept). *)
Section OrderedDict.
Context {K V : Type}.
Variable key_eqb : K -> K -> bool.

Fixpoint dict_set (d : list (K * V)) (k : K) (v : V) : list (K * V) :=
  match d with
  | [] => [(k, v)]
  | (k', v') :: rest =>
      if key_eqb k' k then (k', v) :: rest
      else (k', v') :: dict_set rest k v
  end.

Fixpoint dict_get (d : list (K * V)) (k : K) : option V :=
  match d with
  | [] => None
  | (k', v') :: rest => if key_eqb k' k then Some v' else dict_get rest k
  end.

Definition dict_mem (d : list (K * V)) (k : K) : bool :=
  match dict_get d k with Some _ => true | None => false end.

Definition dict_keys (d : list (K * V)) : list K := map fst d.
Definition dict_values (d : list (K * V)) : list V := map snd d.
End OrderedDict.

(* ================================================================= *)
(** ** The syntax tree ([ast] nodes the transpiler inspects) *)

(** The value of an [ast.Constant]: [str], [int], [bool] or [None].  Floating
    point, complex and bytes constants and [Ellipsis] are left out of the
    embedding. *)
Inductive constant : Type :=
| CStr (s : string)
| CInt (n : Z)
| CBool (b : bool)
| CNone.

(** [str(value)], also what an f-string placeholder [{value}] prints. *)
Definition py_str (value : constant) : string :=
  match value with
  | CStr s => s
  | CInt n => str_int n
  | CBool true => "True"
  | CBool false => "False"
  | CNone => "None"
  end.

(** Python's [==] on constants, as a [dict] compares keys: [True == 1] and
    [False == 0]. *)
Definition py_eqb (a b : constant) : bool :=
  match a, b with
  | CStr s, CStr t => String.eqb s t
  | CInt n, CInt m => Z.eqb n m
  | CInt n, CBool b => Z.eqb n (if b then 1 else 0)
  | CBool b, CInt n => Z.eqb (if b then 1 else 0) n
  | CBool b, CBool c => Bool.eqb b c
  | CNone, CNone => true
  | _, _ => false
  end.

(** [ast.operator]. *)
Inductive operator : Type :=
| Add | Sub | Mult | Div
| Mod | Pow | LShift | RShift | BitOr | BitXor | BitAnd | FloorDiv | MatMult.

(** [ast.expr].  A [JoinedStr] holds literal text ([ast.Constant] with a
    [str]) and placeholders ([ast.FormattedValue], of which only [value] is
    read).  A [Dict] holds its [keys] and [values] already zipped; the key of
    a [**mapping] entry is [None].  A keyword of a [Call] has [arg = None] for
    [**kwargs].  [OtherExpr] stands for every other kind ([Compare],
    [BoolOp], [UnaryOp], [Lambda], [IfExp], [Tuple], ...): the transpiler never
    looks inside them. *)
#[local] Unset Elimination Schemes.
Inductive expr : Type :=
| Constant (value : constant)
| Name (id : string)
| Attribute (value : expr) (attr : string)
| Subscript (value : expr) (slice : expr)
| BinOp (left : expr) (op : operator) (right : expr)
| JoinedStr (values : list (string + expr))
| Call (func : expr) (args : list expr) (keywords : list (option string * expr))
| Dict (items : list (option expr * expr))
| PyList (elts : list expr)
| OtherExpr (kind : string).

(** [ast.stmt].  [OtherStmt] stands for every other statement ([If], [For],
    [While], [With], [Try], [AugAssign], [AnnAssign], [Pass],
    [AsyncFunctionDef], ...) with the child nodes that hold statements. *)
Inductive stmt : Type :=
| ClassDef (name : string) (body : list stmt)
| FunctionDef (name : string) (args : list string) (body : list stmt)
| Assign (targets : list expr) (value : expr)
| Return (value : option expr)
| Expr (value : expr)
| OtherStmt (kind : string) (children : list stmt).
#[local] Set Elimination Schemes.

(** [ast.Module]: what [ast.parse] returns. *)
Record module_ : Type := Module_ { module_body : list stmt }.

(** [isinstance(e, ast.Attribute) and isinstance(e.value, ast.Name) and
    e.value.id == 'self' and e.attr == slot]: the test the source repeats for
    [self.state], [self.props] and [self.set_state]. *)
Definition is_self_attr (slot : string) (e : expr) : bool :=
  match e with
  | Attribute (Name id) attr => String.eqb id "self" && String.eqb attr slot
  | _ => false
  end.

(* ================================================================= *)
(** ** The expression transpiler *)

(** The attribute [self.local_variables]: absent ([hasattr] is false) until the
    first render method is transpiled, then a dictionary from a local name to
    the text of its value. *)
Definition scope : Type := option (list (string * string)).

(** The text of a constant in [_transpile_expression] and
    [_ast_to_js_value]. *)
Definition constant_js (value : constant) : string :=
  match value with
  | CStr s => dquote ++ s ++ dquote
  | CBool _ => lower (py_str value)
  | _ => py_str value
  end.

(** [_transpile_subscript]. *)
Definition _transpile_subscript (value slice : expr) : string :=
  if is_self_attr "state" value then
    match slice with
    | Constant key => "state." ++ py_str key
    | _ => "null"
    end
  else "null".

Section Methods.
(** [self.local_variables] and [self._transpile_expression], the recursive
    call of the methods below. *)
Variable local_variables : scope.
Variable self_transpile_expression : expr -> string.

(** [_transpile_expression(None)]: no [isinstance] test matches. *)
Definition transpile_optional (e : option expr) : string :=
  match e with
  | Some e => self_transpile_expression e
  | None => "null"
  end.

(** [_transpile_dict_literal]. *)
Definition _transpile_dict_literal (items : list (option expr * expr)) : string :=
  let pairs :=
    map (fun kv : option expr * expr =>
           let (key, value) := kv in
           transpile_optional key ++ ": " ++ self_transpile_expression value)
        items in
  "{" ++ join ", " pairs ++ "}".

(** [_transpile_attribute_access]. *)
Definition _transpile_attribute_access (value : expr) (attr : string) : string :=
  if is_self_attr "state" (Attribute value attr) then "state"
  else self_transpile_expression value ++ "." ++ attr.

(** [_transpile_binary_operation]. *)
Definition _transpile_binary_operation (lhs : expr) (op : operator) (rhs : expr)
  : string :=
  let left_js := self_transpile_expression lhs in
  let right_js := self_transpile_expression rhs in
  let left_js :=
    match lhs with
    | Subscript value slice =>
        if is_self_attr "state" value then _transpile_subscript value slice
        else left_js
    | _ => left_js
    end in
  match op with
  | Add => left_js ++ " + " ++ right_js
  | Sub => left_js ++ " - " ++ right_js
  | Mult => left_js ++ " * " ++ right_js
  | Div => left_js ++ " / " ++ right_js
  | _ => left_js ++ " " ++ right_js
  end.

(** [_transpile_f_string]. *)
Definition _transpile_f_string (values : list (string + expr)) : string :=
  let parts :=
    map (fun value : string + expr =>
           match value with
           | inl text => text
           | inr e =>
               match e with
               | Name var_name =>
                   match local_variables with
                   | Some locals =>
                       if dict_mem String.eqb locals var_name
                       then "${" ++ var_name ++ "}"
                       else "${" ++ self_transpile_expression e ++ "}"
                   | None => "${" ++ self_transpile_expression e ++ "}"
                   end
               | Subscript v s =>
                   let expr_js := self_transpile_expression e in
                   let expr_js := _transpile_subscript v s in
                   "${" ++ expr_js ++ "}"
               | _ => "${" ++ self_transpile_expression e ++ "}"
               end
           end)
        values in
  "`" ++ join "" parts ++ "`".

(** [_transpile_function_call]. *)
Definition _transpile_function_call (func : expr) (args : list expr) : string :=
  match func with
  | Name func_name =>
      let args_js := map self_transpile_expression args in
      func_name ++ "(" ++ join ", " args_js ++ ")"
  | Attribute value method_name =>
      let obj_js := self_transpile_expression value in
      let args_js := map self_transpile_expression args in
      if is_self_attr "props" value && String.eqb method_name "get"
         && (length args_js =? 2)%nat
      then
        let key_arg := strip quote_chars (nth 0 args_js "") in
        let default_arg := nth 1 args_js "" in
        "(props." ++ key_arg ++ " || " ++ default_arg ++ ")"
      else obj_js ++ "." ++ method_name ++ "(" ++ join ", " args_js ++ ")"
  | _ => "null"
  end.
End Methods.

(** [_transpile_expression]. *)
Fixpoint _transpile_expression (local_variables : scope) (e : expr) {struct e} : string :=
  match e with
  | Dict items => _transpile_dict_literal (_transpile_expression local_variables) items
  | Constant value => constant_js value
  | Name id => id
  | Attribute value attr =>
      _transpile_attribute_access (_transpile_expression local_variables) value attr
  | BinOp lhs op rhs =>
      _transpile_binary_operation (_transpile_expression local_variables) lhs op rhs
  | JoinedStr values =>
      _transpile_f_string local_variables (_transpile_expression local_variables) values
  | Call func args _ =>
      _transpile_function_call (_transpile_expression local_variables) func args
  | Subscript value slice => _transpile_subscript value slice
  | PyList _ => "null"
  | OtherExpr _ => "null"
  end.

(* ================================================================= *)
(** ** The element-call transpiler *)

(** The builder names [_transpile_element_call] recognises. *)
Definition html_elements : list string :=
  ["div"; "h1"; "h2"; "h3"; "p"; "span"; "button"; "input_field"; "a"; "ul";
   "ol"; "li"; "form"; "label"; "select"; "option"; "textarea"; "br"; "hr";
   "img"].

(** [element_name in html_elements]. *)
Definition is_html_element (element_name : string) : bool :=
  existsb (String.eqb element_name) html_elements.

(** Equality of keyword names ([str] or [None]) as keys of the [props]
    dictionary. *)
Definition prop_name_eqb (a b : option string) : bool :=
  match a, b with
  | Some s, Some t => String.eqb s t
  | None, None => true
  | _, _ => false
  end.

(** The renaming of the three event keywords. *)
Definition rename_prop (prop_name : option string) : option string :=
  match prop_name with
  | Some s =>
      if String.eqb s "onclick" then Some "onClick"
      else if String.eqb s "onchange" then Some "onChange"
      else if String.eqb s "onsubmit" then Some "onSubmit"
      else prop_name
  | None => None
  end.

(** [_build_props_object]; a [None] key prints as [None]. *)
Definition _build_props_object (props_dict : list (option string * string)) : string :=
  match props_dict with
  | [] => "null"
  | _ =>
      let prop_pairs :=
        map (fun kv : option string * string =>
               let (key, value) := kv in
               match key with Some s => s | None => "None" end ++ ": " ++ value)
            props_dict in
      "{" ++ join ", " prop_pairs ++ "}"
  end.

(** [_transpile_prop_value]. *)
Definition _transpile_prop_value (local_variables : scope) (value_node : expr) : string :=
  match value_node with
  | Attribute (Name id) attr =>
      if String.eqb id "self" then attr
      else _transpile_expression local_variables value_node
  | _ => _transpile_expression local_variables value_node
  end.

Section ElementCall.
Variable local_variables : scope.
(** [self._transpile_element_expression], the recursive call. *)
Variable self_transpile_element_expression : expr -> string.

(** [_transpile_element_call]. *)
Definition _transpile_element_call
    (func : expr) (args : list expr) (keywords : list (option string * expr))
  : string :=
  match func with
  | Name element_name =>
      if is_html_element element_name then
        let tag_name :=
          if String.eqb element_name "input_field" then "input" else element_name in
        let children :=
          map (fun arg : expr =>
                 match arg with
                 | Constant (CStr s) => dquote ++ s ++ dquote
                 | _ => self_transpile_element_expression arg
                 end)
              args in
        let props :=
          fold_left
            (fun (props : list (option string * string)) (keyword : option string * expr) =>
               let prop_value := _transpile_prop_value local_variables (snd keyword) in
               dict_set prop_name_eqb props (rename_prop (fst keyword)) prop_value)
            keywords [] in
        let props_str :=
          match props with [] => "null" | _ => _build_props_object props end in
        match children with
        | [] => "React.createElement('" ++ tag_name ++ "', " ++ props_str ++ ")"
        | _ =>
            let children_str := "[" ++ join ", " children ++ "]" in
            "React.createElement('" ++ tag_name ++ "', " ++ props_str ++ ", "
              ++ children_str ++ ")"
        end
      else "null"
  | _ => "null"
  end.
End ElementCall.

(** [_transpile_element_expression]. *)
Fixpoint _transpile_element_expression (local_variables : scope) (e : expr) {struct e}
  : string :=
  match e with
  | Call func args keywords =>
      _transpile_element_call local_variables
        (_transpile_element_expression local_variables) func args keywords
  | _ => _transpile_expression local_variables e
  end.

(** [_transpile_element_expression(None)] for a bare [return]: the argument is
    no [ast.Call], and [_transpile_expression(None)] matches no kind. *)
Definition transpile_element_optional (local_variables : scope) (e : option expr) : string :=
  match e with
  | Some e => _transpile_element_expression local_variables e
  | None => transpile_optional (_transpile_expression local_variables) None
  end.

(* ================================================================= *)
(** ** The statement transpiler *)

(** [_transpile_method_call]. *)
Definition _transpile_method_call
    (local_variables : scope) (func : expr) (args : list expr) : string :=
  if is_self_attr "set_state" func then
    match args with
    | first :: _ =>
        let state_arg := _transpile_expression local_variables first in
        "setState(prevState => ({...prevState, ..." ++ state_arg ++ "}));"
    | [] => ""
    end
  else "".

(** [_transpile_assignment]. *)
Definition _transpile_assignment (targets : list expr) (value : expr) : string := "".

(** [_transpile_statement]. *)
Definition _transpile_statement (local_variables : scope) (s : stmt) : string :=
  match s with
  | Expr (Call func args _) => _transpile_method_call local_variables func args
  | Expr _ => ""
  | Assign targets value => _transpile_assignment targets value
  | Return value =>
      "return " ++ transpile_optional (_transpile_expression local_variables) value ++ ";"
  | _ => ""
  end.

(* ================================================================= *)
(** ** The component analyzer *)

(** The dictionary built by [_analyze_method] (its [ast_node] entry repeats
    the three others). *)
Record method_info : Type := {
  method_name : string;
  method_args : list string;
  method_body : list stmt
}.

(** [_analyze_method]. *)
Definition _analyze_method (name : string) (args : list string) (body : list stmt)
  : method_info :=
  {| method_name := name; method_args := args; method_body := body |}.

(** [_ast_to_js_value]; the key [None] of a [**mapping] entry is of no listed
    kind and gives [null]. *)
Fixpoint _ast_to_js_value (node : expr) {struct node} : string :=
  match node with
  | Constant value => constant_js value
  | PyList elts =>
      let elements := map _ast_to_js_value elts in
      "[" ++ join ", " elements ++ "]"
  | Dict items =>
      let pairs :=
        map (fun kv : option expr * expr =>
               let (key, value) := kv in
               let key_str :=
                 match key with
                 | Some k => _ast_to_js_value k
                 | None => "null"
                 end in
               key_str ++ ": " ++ _ast_to_js_value value)
            items in
      "{" ++ join ", " pairs ++ "}"
  | _ => "null"
  end.

(** A value stored in [initial_state]: the value of a constant, or the text
    [_ast_to_js_value] returns, which is a [str]. *)
Definition state_dict : Type := list (constant * constant).

(** The innermost loop of [_extract_initial_state], over the zipped keys and
    values of the dictionary literal. *)
Definition extract_items (initial_state : state_dict) (items : list (option expr * expr))
  : state_dict :=
  fold_left
    (fun (initial_state : state_dict) (kv : option expr * expr) =>
       match kv with
       | (Some (Constant key), Constant value) =>
           dict_set py_eqb initial_state key value
       | (Some (Constant key), value) =>
           dict_set py_eqb initial_state key (CStr (_ast_to_js_value value))
       | _ => initial_state
       end)
    items initial_state.

(** The loop over the targets of one assignment. *)
Definition extract_targets (initial_state : state_dict) (targets : list expr) (value : expr)
  : state_dict :=
  fold_left
    (fun (initial_state : state_dict) (target : expr) =>
       if is_self_attr "state" target then
         match value with
         | Dict items => extract_items initial_state items
         | _ => initial_state
         end
       else initial_state)
    targets initial_state.

(** The body of the outer loop of [_extract_initial_state] for one
    statement. *)
Definition extract_stmt (initial_state : state_dict) (s : stmt) : state_dict :=
  match s with
  | Assign targets value => extract_targets initial_state targets value
  | _ => initial_state
  end.

(** [_extract_initial_state], on the body of [__init__]. *)
Definition _extract_initial_state (init_body : list stmt) : state_dict :=
  fold_left extract_stmt init_body [].

(** The dictionary built by [_analyze_component_class]. *)
Record component_info : Type := {
  name : string;
  methods : list (string * method_info);
  init_method : option method_info;
  render_method : option method_info;
  initial_state : state_dict
}.

(** The body of the loop of [_analyze_component_class] for one node of the
    class body. *)
Definition analyze_node (info : component_info) (node : stmt) : component_info :=
  match node with
  | FunctionDef node_name args body =>
      let mi := _analyze_method node_name args body in
      let methods' := dict_set String.eqb (methods info) node_name mi in
      if String.eqb node_name "__init__" then
        {| name := name info; methods := methods';
           init_method := Some mi; render_method := render_method info;
           initial_state := _extract_initial_state body |}
      else if String.eqb node_name "render" then
        {| name := name info; methods := methods';
           init_method := init_method info; render_method := Some mi;
           initial_state := initial_state info |}
      else
        {| name := name info; methods := methods';
           init_method := init_method info; render_method := render_method info;
           initial_state := initial_state info |}
  | _ => info
  end.

(** [_analyze_component_class], on the name and body of the class node. *)
Definition _analyze_component_class (class_name : string) (class_body : list stmt)
  : component_info :=
  fold_left analyze_node class_body
    {| name := class_name; methods := []; init_method := None;
       render_method := None; initial_state := [] |}.

(* ================================================================= *)
(** ** The emitter *)

Definition nl : string := String (ascii_of_nat 10) EmptyString.

(** [_dict_to_js_object]. *)
Definition _dict_to_js_object (python_dict : state_dict) : string :=
  match python_dict with
  | [] => "{}"
  | _ =>
      let pairs :=
        map (fun kv : constant * constant =>
               let (key, value) := kv in
               match value with
               | CStr s => py_str key ++ ": " ++ dquote ++ s ++ dquote
               | CBool _ => py_str key ++ ": " ++ lower (py_str value)
               | _ => py_str key ++ ": " ++ py_str value
               end)
            python_dict in
      "{" ++ join ", " pairs ++ "}"
  end.

(** [method_name in ['component_did_mount', 'component_will_unmount',
    'should_component_update']]. *)
Definition is_lifecycle (method_name : string) : bool :=
  existsb (String.eqb method_name)
    ["component_did_mount"; "component_will_unmount"; "should_component_update"].

(** [_transpile_method_to_js]; [None] for a lifecycle method. *)
Definition _transpile_method_to_js (local_variables : scope) (mi : method_info)
  : option string :=
  if is_lifecycle (method_name mi) then None
  else
    let body_lines :=
      fold_left
        (fun (js_lines : list string) (s : stmt) =>
           let js_stmt := _transpile_statement local_variables s in
           if String.eqb js_stmt "" then js_lines
           else app js_lines ["    " ++ js_stmt])
        (method_body mi)
        ["const " ++ method_name mi ++ " = () => {"] in
    Some (join nl (app body_lines ["  };"])).

(** [_transpile_render_assignment]; it also stores into
    [self.local_variables], which [_transpile_render_method] has set to a
    dictionary before the call. *)
Definition _transpile_render_assignment
    (locals : list (string * string)) (targets : list expr) (value : expr)
  : option string * list (string * string) :=
  match targets with
  | [Name var_name] =>
      let value_js := _transpile_expression (Some locals) value in
      (Some ("const " ++ var_name ++ " = " ++ value_js),
       dict_set String.eqb locals var_name value_js)
  | _ => (None, locals)
  end.

(** The state of the loop of [_transpile_render_method]:
    [self.local_variables], [js_statements] and [return_statement] (the
    [value] of the last [Return] met). *)
Record render_loop : Type := {
  loop_locals : list (string * string);
  js_statements : list string;
  return_statement : option (option expr)
}.

Definition render_step (st : render_loop) (s : stmt) : render_loop :=
  match s with
  | Return value =>
      {| loop_locals := loop_locals st; js_statements := js_statements st;
         return_statement := Some value |}
  | Assign targets value =>
      match _transpile_render_assignment (loop_locals st) targets value with
      | (Some js_assign, locals') =>
          {| loop_locals := locals'; js_statements := app (js_statements st) [js_assign];
             return_statement := return_statement st |}
      | (None, locals') =>
          {| loop_locals := locals'; js_statements := js_statements st;
             return_statement := return_statement st |}
      end
  | _ => st
  end.

(** [_transpile_render_method]: the text, and [self.local_variables] as the
    call leaves it.  The scope is set to the empty dictionary first, whatever
    it held. *)
Definition _transpile_render_method (local_variables : scope) (render_body : list stmt)
  : string * scope :=
  let st :=
    fold_left render_step render_body
      {| loop_locals := []; js_statements := []; return_statement := None |} in
  let locals := Some (loop_locals st) in
  match return_statement st with
  | Some value =>
      match js_statements st with
      | [] => (transpile_element_optional locals value, locals)
      | _ =>
          let statements_str := join "; " (js_statements st) in
          let return_expr := transpile_element_optional locals value in
          ("(() => { " ++ statements_str ++ "; return " ++ return_expr ++ "; })()",
           locals)
      end
  | None => ("null", locals)
  end.

(** The lines [_generate_js_component] emits for the methods other than
    [__init__] and [render]. *)
Definition method_lines (local_variables : scope) (methods : list (string * method_info))
  : list string :=
  fold_left
    (fun (js_lines : list string) (entry : string * method_info) =>
       let (method_name, mi) := entry in
       if String.eqb method_name "__init__" || String.eqb method_name "render"
       then js_lines
       else
         match _transpile_method_to_js local_variables mi with
         | Some method_js => app js_lines ["  " ++ method_js; ""]
         | None => js_lines
         end)
    methods [].

(** The lines for the state hook. *)
Definition state_lines (initial_state : state_dict) : list string :=
  match initial_state with
  | [] => []
  | _ =>
      let state_obj := _dict_to_js_object initial_state in
      ["  const [state, setState] = React.useState(" ++ state_obj ++ ");"; ""]
  end.

(** [_generate_js_component]: the text, and [self.local_variables] as the call
    leaves it. *)
Definition _generate_js_component (local_variables : scope) (info : component_info)
  : string * scope :=
  let js_lines := ["function " ++ name info ++ "(props) {"] in
  let js_lines := app js_lines (state_lines (initial_state info)) in
  let js_lines := app js_lines (method_lines local_variables (methods info)) in
  match render_method info with
  | Some rm =>
      let (render_js, locals') := _transpile_render_method local_variables (method_body rm) in
      (join nl (app js_lines ["  return " ++ render_js ++ ";"; "}"]), locals')
  | None =>
      (join nl (app js_lines ["  return null;"; "}"]), local_variables)
  end.

(* ================================================================= *)
(** ** [transpile_component] and the registry *)

(** [ast.iter_child_nodes], restricted to the nodes that can hold a class
    definition (expressions hold no statement). *)
Definition child_nodes (node : stmt) : list stmt :=
  match node with
  | ClassDef _ body => body
  | FunctionDef _ _ body => body
  | OtherStmt _ children => children
  | _ => []
  end.

(** The number of nodes of a statement and of a list of statements. *)
Fixpoint node_count (node : stmt) : nat :=
  match node with
  | ClassDef _ body => S (list_sum (map node_count body))
  | FunctionDef _ _ body => S (list_sum (map node_count body))
  | OtherStmt _ children => S (list_sum (map node_count children))
  | _ => 1
  end.

Definition forest_count (nodes : list stmt) : nat := list_sum (map node_count nodes).

(** The loop of [ast.walk]: pop the left end of the queue, append the children
    of the node at the right end, yield the node.  [fuel] bounds the number of
    nodes yielded. *)
Fixpoint walk_queue (fuel : nat) (todo : list stmt) : list stmt :=
  match fuel with
  | O => []
  | S fuel' =>
      match todo with
      | [] => []
      | node :: rest => node :: walk_queue fuel' (app rest (child_nodes node))
      end
  end.

(** [ast.walk(tree)] without the module node itself, which is no class
    definition. *)
Definition walk (tree : module_) : list stmt :=
  walk_queue (forest_count (module_body tree)) (module_body tree).

(** The search loop of [transpile_component]: the first [ClassDef] met whose
    name is the expected one. *)
Fixpoint find_class_def (nodes : list stmt) (expected : string)
  : option (string * list stmt) :=
  match nodes with
  | [] => None
  | ClassDef node_name body :: rest =>
      if String.eqb node_name expected then Some (node_name, body)
      else find_class_def rest expected
  | _ :: rest => find_class_def rest expected
  end.

Inductive exception : Type :=
| ValueError (message : string).

Inductive result (A : Type) : Type :=
| Ok (value : A)
| Raise (e : exception).
Arguments Ok {A} value.
Arguments Raise {A} e.

(** The attributes of a [PyReactTranspiler] that the core reads or writes
    ([js_output] is never used). *)
Record transpiler : Type := {
  components : list (string * string);
  local_variables : scope
}.

(** [PyReactTranspiler()]. *)
Definition new_transpiler : transpiler :=
  {| components := []; local_variables := None |}.

(** [transpile_component], from the tree [ast.parse] gives for the source of
    the class and [component_class.__name__]. *)
Definition transpile_component (self : transpiler) (tree : module_) (class_name : string)
  : result string * transpiler :=
  match find_class_def (walk tree) class_name with
  | None =>
      (Raise (ValueError ("Could not find class definition for " ++ class_name)), self)
  | Some (node_name, class_body) =>
      let info := _analyze_component_class node_name class_body in
      let (js_code, locals') := _generate_js_component (local_variables self) info in
      (Ok js_code,
       {| components := dict_set String.eqb (components self) class_name js_code;
          local_variables := locals' |})
  end.

(** [generate_complete_js]. *)
Definition generate_complete_js (self : transpiler) : string :=
  match components self with
  | [] => "// No components to transpile"
  | _ =>
      let js_parts :=
        fold_left
          (fun (js_parts : list string) (entry : string * string) =>
             app js_parts [snd entry; ""])
          (components self)
          ["// PyReact - Transpiled Components"; ""] in
      join nl js_parts
  end.

(** A run of the driver: one [transpile_component] call per class, in order;
    the results of the calls are collected. *)
Fixpoint transpile_all (self : transpiler) (classes : list (module_ * string))
  : list (result string) * transpiler :=
  match classes with
  | [] => ([], self)
  | (tree, class_name) :: rest =>
      let (r, self') := transpile_component self tree class_name in
      let (rs, self'') := transpile_all self' rest in
      (r :: rs, self'')
  end.

(** The kinds of expression the specification lists as supported, and the
    statement shapes the statement transpiler handles. *)
Definition supported_expr (e : expr) : bool :=
  match e with
  | OtherExpr _ => false
  | _ => true
  end.

Definition supported_stmt (s : stmt) : bool :=
  match s with
  | Expr _ | Assign _ _ | Return _ => true
  | _ => false
  end.

(** The test of [_transpile_element_call]: the callee is a bare identifier
    found in [html_elements]. *)
Definition is_builder_callee (func : expr) : bool :=
  match func with
  | Name element_name => is_html_element element_name
  | _ => false
  end.

(** A class declaration named [expected] is [node] or lies below it. *)
Fixpoint declares_class (expected : string) (node : stmt) {struct node} : bool :=
  match node with
  | ClassDef node_name body =>
      String.eqb node_name expected || existsb (declares_class expected) body
  | FunctionDef _ _ body => existsb (declares_class expected) body
  | OtherStmt _ children => existsb (declares_class expected) children
  | _ => false
  end.

(** A class declaration named [expected] exists in the tree. *)
Definition tree_declares (tree : module_) (expected : string) : bool :=
  existsb (declares_class expected) (module_body tree).

(** [node] is a class declaration named [expected]. *)
Definition is_class_named (expected : string) (node : stmt) : bool :=
  match node with
  | ClassDef node_name _ => String.eqb node_name expected
  | _ => false
  end.

(** [node] is a method declaration named [expected]. *)
Definition is_method_named (expected : string) (node : stmt) : bool :=
  match node with
  | FunctionDef node_name _ _ => String.eqb node_name expected
  | _ => false
  end.

(** [s] assigns a dictionary literal to [self.state] (possibly among other
    targets): the only statements initial-state extraction reads. *)
Definition is_literal_state_assign (s : stmt) : bool :=
  match s with
  | Assign targets (Dict _) => existsb (is_self_attr "state") targets
  | _ => false
  end.

(** [self.state = {'count': 0}]. *)
Definition count_state_assign : stmt :=
  Assign [Attribute (Name "self") "state"]
         (Dict [(Some (Constant (CStr "count")), Constant (CInt 0))]).

(** The first and the last character of a key, against the characters
    [strip] removes. *)
Definition starts_with_quote (key : string) : bool :=
  match key with
  | EmptyString => false
  | String c _ => char_in c quote_chars
  end.

Fixpoint ends_with_quote (key : string) : bool :=
  match key with
  | EmptyString => false
  | String c EmptyString => char_in c quote_chars
  | String _ rest => ends_with_quote rest
  end.

(** A call that returned, and the text it returned. *)
Definition is_ok {A : Type} (r : result A) : bool :=
  match r with
  | Ok _ => true
  | Raise _ => false
  end.

Definition code_of (r : result string) : string :=
  match r with
  | Ok js_code => js_code
  | Raise _ => ""
  end.

(** [self.components[class_name] = js_code], on the registry alone. *)
Definition register (registry : list (string * string)) (entry : string * string)
  : list (string * string) :=
  dict_set String.eqb registry (fst entry) (snd entry).

(** The names seen so far, in the order of their first occurrence. *)
Definition note_name (seen : list string) (class_name : string) : list string :=
  if existsb (fun known => String.eqb known class_name) seen then seen
  else app seen [class_name].

(** [s] is a [return] statement. *)
Definition is_return (s : stmt) : bool :=
  match s with
  | Return _ => true
  | _ => false
  end.

(** The call [self.set_state(mapping)] as an expression statement, and the
    call [self.props.get(key, default)]. *)
Definition set_state_stmt (items : list (option expr * expr))
    (keywords : list (option string * expr)) : stmt :=
  Expr (Call (Attribute (Name "self") "set_state") [Dict items] keywords).

Definition props_get (key : string) (default : expr) : expr :=
  Call (Attribute (Attribute (Name "self") "props") "get")
       [Constant (CStr key); default] [].

(** [self.state[key]] with a string key. *)
Definition state_subscript (key : string) : expr :=
  Subscript (Attribute (Name "self") "state") (Constant (CStr key)).

(** The update statement and the hook declaration as the specification words
    them, with the names [update] and [prev]. *)
Definition spec_update_statement (mapping : string) : string :=
  "update(prev => ({...prev, ..." ++ mapping ++ "}))".

Definition spec_state_hook (state_obj : string) : string :=
  "  const [state, update] = React.useState(" ++ state_obj ++ ");".

(* ================================================================= *)
(** ** Closed forms used to state further properties *)

(** The text between the operands of a binary operation: the four arithmetic
    operators, and a single space for every other operator. *)
Definition op_text (op : operator) : string :=
  match op with
  | Add => " + "
  | Sub => " - "
  | Mult => " * "
  | Div => " / "
  | _ => " "
  end.

(** The text of one part of an f-string: literal text as it is, a placeholder
    as the transpiled expression inside a template substitution. *)
Definition fstring_part (value : string + expr) : string :=
  match value with
  | inl text => text
  | inr e => "${" ++ _transpile_expression None e ++ "}"
  end.

(** The statements of a handler body that leave a line: a [return], and a
    call [self.set_state(...)] with at least one positional argument. *)
Definition emits_line (s : stmt) : bool :=
  match s with
  | Return _ => true
  | Expr (Call func (_ :: _) _) => is_self_attr "set_state" func
  | _ => false
  end.

(** [name = value] with the single target [name]. *)
Definition local_assign (binding : string * expr) : stmt :=
  Assign [Name (fst binding)] (snd binding).

(** The declaration emitted for a local assignment of a render body. *)
Definition const_declaration (binding : string * expr) : string :=
  "const " ++ fst binding ++ " = " ++ _transpile_expression None (snd binding).

(** The declarations a render body leaves: one for each assignment to a
    single name, in body order; no other statement leaves one. *)
Definition local_declarations (render_body : list stmt) : list string :=
  flat_map (fun s : stmt =>
              match s with
              | Assign [Name var_name] value => [const_declaration (var_name, value)]
              | _ => []
              end)
           render_body.

(** The entries a dictionary literal writes into the initial state, in
    order, and the entries a constructor body writes: those of each literal
    assigned to [self.state], once for each such target. *)
Definition item_entries (items : list (option expr * expr)) : list (constant * constant) :=
  flat_map (fun kv : option expr * expr =>
              match kv with
              | (Some (Constant key), Constant value) => [(key, value)]
              | (Some (Constant key), value) => [(key, CStr (_ast_to_js_value value))]
              | _ => []
              end)
           items.

Definition state_entries (init_body : list stmt) : list (constant * constant) :=
  flat_map (fun s : stmt =>
              match s with
              | Assign targets (Dict items) =>
                  flat_map (fun target : expr =>
                              if is_self_attr "state" target then item_entries items
                              else [])
                           targets
              | _ => []
              end)
           init_body.

(** The keys seen so far, in the order of their first occurrence, for the
    comparison of dictionary keys. *)
Definition note_key (seen : list constant) (key : constant) : list constant :=
  if existsb (fun known => py_eqb known key) seen then seen else app seen [key].

(** The class names of a run are pairwise different and different from the
    names already [seen]. *)
Fixpoint names_new (seen names : list string) : bool :=
  match names with
  | [] => true
  | n :: rest =>
      negb (existsb (fun known => String.eqb known n) seen)
      && names_new (app seen [n]) rest
  end.

(** The tree [ast.parse] gives for the source of one class. *)
Definition class_tree (class_name : string) (class_body : list stmt) : module_ :=
  Module_ [ClassDef class_name class_body].

(** [isinstance(e, ast.Constant)]. *)
Definition is_constant (e : expr) : bool :=
  match e with
  | Constant _ => true
  | _ => false
  end.

(** Expressions made of constants and dictionary literals only. *)
Fixpoint plain_literal (e : expr) {struct e} : bool :=
  match e with
  | Constant _ => true
  | Dict items =>
      forallb (fun kv : option expr * expr =>
                 match fst kv with
                 | Some key => plain_literal key
                 | None => true
                 end && plain_literal (snd kv))
              items
  | _ => false
  end.

(** The keys of a dictionary are pairwise different for the comparison the
    dictionary uses: an earlier key never equals a later one. *)
Definition keys_distinct {K : Type} (key_eqb : K -> K -> bool) (keys : list K) : Prop :=
  ForallOrdPairs (fun earlier later => key_eqb earlier later = false) keys.

(** The keyword names of a builder call, after renaming, are pairwise
    different and different from the names already [seen]. *)
Fixpoint names_fresh (seen names : list (option string)) : bool :=
  match names with
  | [] => true
  | n :: rest =>
      negb (existsb (fun known => prop_name_eqb known n) seen)
      && names_fresh (app seen [n]) rest
  end.

(** The text of one child and of one property of a builder call. *)
Definition element_child (arg : expr) : string :=
  match arg with
  | Constant (CStr s) => dquote ++ s ++ dquote
  | _ => _transpile_element_expression None arg
  end.

Definition element_prop (keyword : option string * expr) : string :=
  match rename_prop (fst keyword) with Some s => s | None => "None" end
  ++ ": " ++ _transpile_prop_value None (snd keyword).

(** The calls of a run that returned, with the text each returned. *)
Definition ok_entries (calls : list (string * result string)) : list (string * string) :=
  flat_map (fun call : string * result string =>
              match snd call with
              | Ok js_code => [(fst call, js_code)]
              | Raise _ => []
              end)
           calls.

(* ================================================================= *)
(** ** The run-time classes [Component] and [Element] and the builders *)

(** The Python values the run-time classes handle: constants, lists,
    dictionaries keyed by constants, sets of constants (a value that is no
    dictionary and has an [update] method), and [Element] objects with their
    three attributes. *)
#[local] Unset Elimination Schemes.
Inductive py_value : Type :=
| PConst (value : constant)
| PList (items : list py_value)
| PDict (entries : list (constant * py_value))
| PSet (elements : list constant)
| PElement (tag props children : py_value).
#[local] Set Elimination Schemes.

Definition py_none : py_value := PConst CNone.

(** The truth value of an object, as [or] tests it: [None], zero, [False]
    and the empty string, list, dictionary and set are false; an [Element] defines
    neither [__bool__] nor [__len__] and is true. *)
Definition truthy (v : py_value) : bool :=
  match v with
  | PConst (CStr s) => negb (String.eqb s "")
  | PConst (CInt n) => negb (Z.eqb n 0)
  | PConst (CBool b) => b
  | PConst CNone => false
  | PList items => match items with [] => false | _ => true end
  | PDict entries => match entries with [] => false | _ => true end
  | PSet elements => match elements with [] => false | _ => true end
  | PElement _ _ _ => true
  end.

(** [a or b]. *)
Definition py_or (a b : py_value) : py_value := if truthy a then a else b.

(** [Element.__init__]: the object it builds. *)
Definition Element (tag props children : py_value) : py_value :=
  let self_props := py_or props (PDict []) in
  let self_children := py_or children (PList []) in
  let self_children :=
    match self_children with
    | PList _ => self_children
    | _ => PList [self_children]
    end in
  PElement tag self_props self_children.

(** The keyword arguments of a builder, as the dictionary [props] the
    function receives. *)
Definition kwargs (props : list (string * py_value)) : py_value :=
  PDict (map (fun kv : string * py_value => (CStr (fst kv), snd kv)) props).

(** [[content] if content is not None else []]. *)
Definition content_list (content : py_value) : list py_value :=
  match content with
  | PConst CNone => []
  | _ => [content]
  end.

(** The four shapes of builder function: positional children and keyword
    properties ([div]); an optional first argument [content], further
    children and properties ([h1]); properties only ([input_field]); and
    [content] with properties ([textarea]). *)
Definition container_builder (tag : string) (children : list py_value)
    (props : list (string * py_value)) : py_value :=
  Element (PConst (CStr tag)) (kwargs props) (PList children).

Definition content_builder (tag : string) (content : py_value) (children : list py_value)
    (props : list (string * py_value)) : py_value :=
  let all_children := app (content_list content) children in
  Element (PConst (CStr tag)) (kwargs props) (PList all_children).

Definition void_builder (tag : string) (props : list (string * py_value)) : py_value :=
  Element (PConst (CStr tag)) (kwargs props) (PList []).

Definition content_only_builder (tag : string) (content : py_value)
    (props : list (string * py_value)) : py_value :=
  let children := content_list content in
  Element (PConst (CStr tag)) (kwargs props) (PList children).

(** The builder functions of the module, each with the tag it passes to
    [Element]. *)
Module Builders.
Definition div := container_builder "div".
Definition h1 := content_builder "h1".
Definition h2 := content_builder "h2".
Definition h3 := content_builder "h3".
Definition p := content_builder "p".
Definition span := content_builder "span".
Definition button := content_builder "button".
Definition input_field := void_builder "input".
Definition img := void_builder "img".
Definition a := content_builder "a".
Definition ul := container_builder "ul".
Definition ol := container_builder "ol".
Definition li := content_builder "li".
Definition form := container_builder "form".
Definition label := content_builder "label".
Definition select := container_builder "select".
Definition textarea := content_only_builder "textarea".
Definition br := void_builder "br".
Definition hr := void_builder "hr".
Definition option := content_builder "option".
End Builders.

(** The attribute [tag] of an element. *)
Definition element_tag (v : py_value) : py_value :=
  match v with
  | PElement tag _ _ => tag
  | _ => py_none
  end.

Definition element_children (v : py_value) : py_value :=
  match v with
  | PElement _ _ children => children
  | _ => py_none
  end.

Definition element_props (v : py_value) : py_value :=
  match v with
  | PElement _ props _ => props
  | _ => py_none
  end.

(** The name of every builder function, with the tag of the element it
    returns when called without arguments. *)
Definition builder_tags : list (string * py_value) :=
  [("div", element_tag (Builders.div [] []));
   ("h1", element_tag (Builders.h1 py_none [] []));
   ("h2", element_tag (Builders.h2 py_none [] []));
   ("h3", element_tag (Builders.h3 py_none [] []));
   ("p", element_tag (Builders.p py_none [] []));
   ("span", element_tag (Builders.span py_none [] []));
   ("button", element_tag (Builders.button py_none [] []));
   ("input_field", element_tag (Builders.input_field []));
   ("img", element_tag (Builders.img []));
   ("a", element_tag (Builders.a py_none [] []));
   ("ul", element_tag (Builders.ul [] []));
   ("ol", element_tag (Builders.ol [] []));
   ("li", element_tag (Builders.li py_none [] []));
   ("form", element_tag (Builders.form [] []));
   ("label", element_tag (Builders.label py_none [] []));
   ("select", element_tag (Builders.select [] []));
   ("option", element_tag (Builders.option py_none [] []));
   ("textarea", element_tag (Builders.textarea py_none []));
   ("br", element_tag (Builders.br []));
   ("hr", element_tag (Builders.hr []))].

(** The attributes of a [Component]. *)
Record component : Type := {
  comp_props : py_value;
  comp_state : py_value;
  comp_children : py_value;
  comp_element : py_value
}.

(** [Component.__init__]. *)
Definition Component (props : py_value) : component :=
  {| comp_props := py_or props (PDict []);
     comp_state := PDict [];
     comp_children := PList [];
     comp_element := py_none |}.

(** [d.update(other)] for two dictionaries: each entry of [other] is stored,
    in order. *)
Definition dict_update (d other : list (constant * py_value))
  : list (constant * py_value) :=
  fold_left (fun (d : list (constant * py_value)) (kv : constant * py_value) =>
               dict_set py_eqb d (fst kv) (snd kv))
            other d.

(** [type(v).__name__]. *)
Definition type_name (v : py_value) : string :=
  match v with
  | PConst (CStr _) => "str"
  | PConst (CInt _) => "int"
  | PConst (CBool _) => "bool"
  | PConst CNone => "NoneType"
  | PList _ => "list"
  | PDict _ => "dict"
  | PSet _ => "set"
  | PElement _ _ _ => "Element"
  end.

(** [hasattr(v, 'update')]: dictionaries and sets have the method; strings,
    numbers, [None], lists and [Element] objects do not. *)
Definition has_update (v : py_value) : bool :=
  match v with
  | PDict _ | PSet _ => true
  | _ => false
  end.

(** [s.add(k)] and [s.update(other)] for a set and a dictionary: iterating a
    dictionary gives its keys, so the keys are added and the values are
    lost. *)
Definition set_add (s : list constant) (k : constant) : list constant :=
  if existsb (fun known => py_eqb known k) s then s else app s [k].

Definition set_update (s : list constant) (other : list (constant * py_value))
  : list constant :=
  fold_left set_add (map fst other) s.

(** The outcome of a method of [Component]: it returns, leaving the object
    as given, or raises [AttributeError]. *)
Inductive outcome : Type :=
| Returns (self : component)
| AttributeError (message : string).

(** [Component.set_state]; [_trigger_update] does nothing.  The call
    [self.state.update(new_state)] is the dictionary update when the state is
    a dictionary, the set update when an earlier call made the state a set,
    and raises [AttributeError] when the state has no [update] method. *)
Definition set_state (self : component) (new_state : py_value) : outcome :=
  match new_state with
  | PDict other =>
      match comp_state self with
      | PDict d =>
          Returns {| comp_props := comp_props self;
                     comp_state := PDict (dict_update d other);
                     comp_children := comp_children self;
                     comp_element := comp_element self |}
      | PSet elements =>
          Returns {| comp_props := comp_props self;
                     comp_state := PSet (set_update elements other);
                     comp_children := comp_children self;
                     comp_element := comp_element self |}
      | state =>
          AttributeError
            ("'" ++ type_name state ++ "' object has no attribute 'update'")
      end
  | _ =>
      Returns {| comp_props := comp_props self;
                 comp_state := new_state;
                 comp_children := comp_children self;
                 comp_element := comp_element self |}
  end.

(** [self.state[key]] after the fact, for a state that is a dictionary. *)
Definition state_lookup (self : component) (key : constant) : option py_value :=
  match comp_state self with
  | PDict d => dict_get py_eqb d key
  | _ => None
  end.

(* ================================================================= *)
(** ** Properties *)

(** *** Element position (C1) *)

Lemma element_expression_call (lv : scope) func args keywords :
  _transpile_element_expression lv (Call func args keywords)
  = _transpile_element_call lv (_transpile_element_expression lv) func args keywords.
Proof. reflexivity. Qed.

Lemma expression_call (lv : scope) func args keywords :
  _transpile_expression lv (Call func args keywords)
  = _transpile_function_call (_transpile_expression lv) func args.
Proof. reflexivity. Qed.

(** C1, as the specification states it, fails: the call [foo()] as the return
    value of [render] is emitted as [null], while its ordinary transpilation
    is [foo()]. *)
Lemma C1_counterexample :
  _transpile_element_expression None (Call (Name "foo") [] [])
  <> _transpile_expression None (Call (Name "foo") [] []).
Proof. vm_compute. discriminate. Qed.

(** C1 (amended): a call in element position whose callee is not a bare
    identifier of the builder registry is emitted as the placeholder [null];
    it is not handed to the ordinary call transpilation. *)
Theorem C1_non_builder_call_is_null (lv : scope) func args keywords :
  is_builder_callee func = false ->
  _transpile_element_expression lv (Call func args keywords) = "null".
Proof.
  intros Hreg. rewrite element_expression_call.
  unfold _transpile_element_call.
  destruct func as [ | element_name | | | | | | | | ]; try reflexivity.
  simpl in Hreg. rewrite Hreg. reflexivity.
Qed.

Lemma C1_non_builder_call_is_null_witness :
  _transpile_element_expression None
    (Call (Attribute (Name "obj") "method") [Name "x"] []) = "null".
Proof.
  apply (C1_non_builder_call_is_null None (Attribute (Name "obj") "method") [Name "x"] []).
  reflexivity.
Defined.

(** The same holds for a child of a builder call: [div(foo())] has the single
    child [null]. *)
Example element_child_non_builder :
  _transpile_element_expression None
    (Call (Name "div") [Call (Name "foo") [] []] [])
  = "React.createElement('div', null, [null])".
Proof. reflexivity. Qed.

(** *** State hook and state updates (C2) *)

(** C2, as the specification states it, fails: the update statement for
    [self.set_state({'count': 0})] is not the text with [update] and [prev],
    and the hook declaration for the state [{count: 0}] does not bind
    [update]. *)
Lemma C2_counterexample :
  _transpile_statement None
    (set_state_stmt [(Some (Constant (CStr "count")), Constant (CInt 0))] [])
  <> spec_update_statement
       (_transpile_expression None
          (Dict [(Some (Constant (CStr "count")), Constant (CInt 0))]))
  /\ hd "" (state_lines [(CStr "count", CInt 0)])
     <> spec_state_hook (_dict_to_js_object [(CStr "count", CInt 0)]).
Proof. split; vm_compute; discriminate. Qed.

(** The line a statement contributes to the body of a handler. *)
Lemma method_body_fold (lv : scope) (body : list stmt) (acc : list string) :
  fold_left
    (fun (js_lines : list string) (s : stmt) =>
       let js_stmt := _transpile_statement lv s in
       if String.eqb js_stmt "" then js_lines
       else app js_lines ["    " ++ js_stmt])
    body acc
  = app acc
      (flat_map (fun s => if String.eqb (_transpile_statement lv s) "" then []
                          else ["    " ++ _transpile_statement lv s]) body).
Proof.
  revert acc. induction body as [ | s body IH]; intros acc; simpl.
  - now rewrite app_nil_r.
  - rewrite IH. destruct (String.eqb (_transpile_statement lv s) ""); simpl.
    + reflexivity.
    + now rewrite <- app_assoc.
Qed.

Lemma set_state_statement (lv : scope) items keywords :
  _transpile_statement lv (set_state_stmt items keywords)
  = "setState(prevState => ({...prevState, ..."
      ++ _transpile_expression lv (Dict items) ++ "}));".
Proof. reflexivity. Qed.

Lemma update_statement_nonempty (mapping : string) :
  String.eqb ("setState(prevState => ({...prevState, ..." ++ mapping ++ "}));") "" = false.
Proof. reflexivity. Qed.

Lemma method_lines_fold (lv : scope) (ms : list (string * method_info))
    (acc : list string) :
  fold_left
    (fun (js_lines : list string) (entry : string * method_info) =>
       let (method_name, mi) := entry in
       if String.eqb method_name "__init__" || String.eqb method_name "render"
       then js_lines
       else
         match _transpile_method_to_js lv mi with
         | Some method_js => app js_lines ["  " ++ method_js; ""]
         | None => js_lines
         end)
    ms acc
  = app acc (method_lines lv ms).
Proof.
  unfold method_lines. revert acc.
  induction ms as [ | [mname mi] ms IH] using rev_ind; intros acc.
  - simpl. now rewrite app_nil_r.
  - rewrite !fold_left_app. cbn [fold_left]. rewrite IH.
    destruct (String.eqb mname "__init__" || String.eqb mname "render");
      [reflexivity | ].
    destruct (_transpile_method_to_js lv mi); [ | reflexivity].
    now rewrite app_assoc.
Qed.

Lemma method_lines_app (lv : scope) (ms1 ms2 : list (string * method_info)) :
  method_lines lv (app ms1 ms2) = app (method_lines lv ms1) (method_lines lv ms2).
Proof.
  unfold method_lines at 1. rewrite fold_left_app.
  fold (method_lines lv ms1). apply method_lines_fold.
Qed.

(** C2 (amended): a non-empty initial state gives the hook declaration
    [const [state, setState] = React.useState(...)], so the pair is bound to
    [state] and [setState]; and [self.set_state(mapping)] as an expression
    statement gives [setState(prevState => ({...prevState, ...mapping}));],
    which is a line of the handler emitted for every method other than the
    constructor, [render] and the lifecycle methods. *)
Theorem C2_state_update_merges
    (lv : scope) (st : state_dict) (mname : string) (margs : list string)
    (pre post : list stmt) items keywords
    (methods_before methods_after : list (string * method_info)) :
  st <> [] ->
  is_lifecycle mname = false ->
  String.eqb mname "__init__" || String.eqb mname "render" = false ->
  let update :=
    "setState(prevState => ({...prevState, ..."
      ++ _transpile_expression lv (Dict items) ++ "}));" in
  let mi := _analyze_method mname margs (app pre (set_state_stmt items keywords :: post)) in
  state_lines st
  = ["  const [state, setState] = React.useState(" ++ _dict_to_js_object st ++ ");"; ""]
  /\ _transpile_statement lv (set_state_stmt items keywords) = update
  /\ exists before after,
       _transpile_method_to_js lv mi = Some (join nl (app before (("    " ++ update) :: after)))
       /\ method_lines lv (app methods_before ((mname, mi) :: methods_after))
          = app (method_lines lv methods_before)
              (("  " ++ join nl (app before (("    " ++ update) :: after))) :: ""
               :: method_lines lv methods_after).
Proof.
  intros Hst Hlife Hname update mi. split; [ | split].
  - destruct st; [contradiction | reflexivity].
  - apply set_state_statement.
  - assert (Hmethod : exists before after,
              _transpile_method_to_js lv mi
              = Some (join nl (app before (("    " ++ update) :: after)))).
    { unfold mi, _transpile_method_to_js, _analyze_method.
      cbn [method_name method_body].
      rewrite Hlife, method_body_fold, flat_map_app.
      cbn [flat_map]. rewrite set_state_statement, update_statement_nonempty.
      match goal with
      | |- exists _ _, Some (join nl (app (app [?hdr] (app ?A (app [_] ?B))) ?E)) = _ =>
          exists (hdr :: A), (app B E)
      end.
      do 2 f_equal. rewrite <- !app_assoc. reflexivity. }
    destruct Hmethod as [before [after Hmethod]].
    exists before, after. split; [exact Hmethod | ].
    rewrite method_lines_app. f_equal.
    change ((mname, mi) :: methods_after) with (app [(mname, mi)] methods_after).
    rewrite method_lines_app. unfold method_lines at 1. cbn [fold_left].
    rewrite Hname, Hmethod. reflexivity.
Qed.

Lemma C2_state_update_merges_witness :
  let update :=
    "setState(prevState => ({...prevState, ..."
      ++ _transpile_expression None
           (Dict [(Some (Constant (CStr "count")), Constant (CInt 0))]) ++ "}));" in
  let mi :=
    _analyze_method "reset" ["self"]
      (app [] (set_state_stmt [(Some (Constant (CStr "count")), Constant (CInt 0))] []
                 :: [])) in
  state_lines [(CStr "count", CInt 0)]
  = ["  const [state, setState] = React.useState("
       ++ _dict_to_js_object [(CStr "count", CInt 0)] ++ ");"; ""]
  /\ _transpile_statement None
       (set_state_stmt [(Some (Constant (CStr "count")), Constant (CInt 0))] [])
     = update
  /\ exists before after,
       _transpile_method_to_js None mi
       = Some (join nl (app before (("    " ++ update) :: after)))
       /\ method_lines None (app [] (("reset", mi) :: []))
          = app (method_lines None [])
              (("  " ++ join nl (app before (("    " ++ update) :: after))) :: ""
               :: method_lines None []).
Proof.
  exact (C2_state_update_merges None [(CStr "count", CInt 0)] "reset" ["self"] [] []
           [(Some (Constant (CStr "count")), Constant (CInt 0))] [] [] []
           ltac:(discriminate) eq_refl eq_refl).
Defined.

(** *** Induction over expressions, through the lists they nest *)

Section ExprInduction.
Variable P : expr -> Prop.
Hypothesis P_Constant : forall value, P (Constant value).
Hypothesis P_Name : forall id, P (Name id).
Hypothesis P_Attribute : forall value attr, P value -> P (Attribute value attr).
Hypothesis P_Subscript : forall value slice, P value -> P slice -> P (Subscript value slice).
Hypothesis P_BinOp : forall lhs op rhs, P lhs -> P rhs -> P (BinOp lhs op rhs).
Hypothesis P_JoinedStr : forall values,
    Forall (fun v : string + expr => match v with inl _ => True | inr e => P e end) values ->
    P (JoinedStr values).
Hypothesis P_Call : forall func args keywords,
    P func -> Forall P args ->
    Forall (fun kw : option string * expr => P (snd kw)) keywords ->
    P (Call func args keywords).
Hypothesis P_Dict : forall items,
    Forall (fun kv : option expr * expr =>
              match fst kv with Some k => P k | None => True end /\ P (snd kv)) items ->
    P (Dict items).
Hypothesis P_PyList : forall elts, Forall P elts -> P (PyList elts).
Hypothesis P_OtherExpr : forall kind, P (OtherExpr kind).

Lemma expr_nested_ind : forall e, P e.
Proof.
  fix IH 1.
  intros [value | id | value attr | value slice | lhs op rhs | values
         | func args keywords | items | elts | kind].
  - apply P_Constant.
  - apply P_Name.
  - apply P_Attribute, IH.
  - apply P_Subscript; apply IH.
  - apply P_BinOp; apply IH.
  - apply P_JoinedStr.
    induction values as [ | [text | e] values IHvalues]; constructor;
      solve [exact I | apply IH | exact IHvalues].
  - apply P_Call.
    + apply IH.
    + induction args as [ | arg args IHargs]; constructor; [apply IH | exact IHargs].
    + induction keywords as [ | [kw value] keywords IHkeywords]; constructor;
        [apply IH | exact IHkeywords].
  - apply P_Dict.
    induction items as [ | [[key | ] value] items IHitems]; constructor;
      solve [split; [apply IH | apply IH] | split; [exact I | apply IH] | exact IHitems].
  - apply P_PyList.
    induction elts as [ | el elts IHelts]; constructor; [apply IH | exact IHelts].
  - apply P_OtherExpr.
Qed.
End ExprInduction.

(** *** Determinism (C9) *)

Lemma map_ext_Forall_string {A : Type} (f g : A -> string) (l : list A) :
  Forall (fun x => f x = g x) l -> map f l = map g l.
Proof. induction 1; simpl; congruence. Qed.

(** The text of an expression does not depend on [self.local_variables]: an
    f-string placeholder that is a recorded local name and one that is not are
    both emitted as the name itself.  The statement is strengthened to the
    target of an attribute access, which [_transpile_function_call] transpiles
    on its own. *)
Lemma transpile_expression_scope_strong (lv1 lv2 : scope) (e : expr) :
  _transpile_expression lv1 e = _transpile_expression lv2 e
  /\ match e with
     | Attribute value _ => _transpile_expression lv1 value = _transpile_expression lv2 value
     | _ => True
     end.
Proof.
  induction e using expr_nested_ind; simpl; try (split; [reflexivity | exact I]).
  - destruct IHe as [IHe _]. split; [ | exact IHe].
    unfold _transpile_attribute_access. now rewrite IHe.
  - destruct IHe1 as [IHe1 _], IHe2 as [IHe2 _]. split; [ | exact I].
    unfold _transpile_binary_operation. now rewrite IHe1, IHe2.
  - split; [ | exact I].
    unfold _transpile_f_string. do 3 f_equal.
    apply map_ext_Forall_string. eapply Forall_impl; [ | exact H].
    intros [text | e] He; [reflexivity | ].
    destruct He as [He _].
    destruct e; try reflexivity; try (now rewrite He).
    simpl.
    destruct lv1 as [l1 | ], lv2 as [l2 | ];
      repeat match goal with
        | |- context [dict_mem ?eqb ?l ?k] => destruct (dict_mem eqb l k)
        end; reflexivity.
  - split; [ | exact I].
    unfold _transpile_function_call.
    assert (Hargs : map (_transpile_expression lv1) args = map (_transpile_expression lv2) args).
    { apply map_ext_Forall_string. eapply Forall_impl; [ | exact H].
      intros a Ha. apply Ha. }
    rewrite Hargs.
    destruct e; try reflexivity.
    destruct IHe as [_ He]. now rewrite He.
  - split; [ | exact I].
    unfold _transpile_dict_literal. do 3 f_equal.
    apply map_ext_Forall_string. eapply Forall_impl; [ | exact H].
    intros [[key | ] value] [Hk Hv]; simpl in *.
    + destruct Hk as [Hk _], Hv as [Hv _]. now rewrite Hk, Hv.
    + destruct Hv as [Hv _]. now rewrite Hv.
Qed.

Lemma transpile_expression_scope (lv1 lv2 : scope) (e : expr) :
  _transpile_expression lv1 e = _transpile_expression lv2 e.
Proof. apply transpile_expression_scope_strong. Qed.

Lemma fold_left_pointwise {A B : Type} (f g : A -> B -> A) (l : list B) (a : A) :
  (forall x y, f x y = g x y) -> fold_left f l a = fold_left g l a.
Proof.
  intros Hfg. revert a. induction l as [ | y l IH]; intros a; simpl.
  - reflexivity.
  - now rewrite Hfg, IH.
Qed.

Lemma transpile_prop_value_scope (lv1 lv2 : scope) (value_node : expr) :
  _transpile_prop_value lv1 value_node = _transpile_prop_value lv2 value_node.
Proof.
  unfold _transpile_prop_value.
  rewrite (transpile_expression_scope lv1 lv2 value_node). reflexivity.
Qed.

Lemma transpile_element_expression_scope (lv1 lv2 : scope) (e : expr) :
  _transpile_element_expression lv1 e = _transpile_element_expression lv2 e.
Proof.
  induction e using expr_nested_ind;
    try (exact (transpile_expression_scope lv1 lv2 _)).
  rewrite !element_expression_call. unfold _transpile_element_call.
  destruct e; try reflexivity.
  destruct (is_html_element id); [ | reflexivity].
  assert (Hchildren :
    map (fun arg : expr =>
           match arg with
           | Constant (CStr s) => dquote ++ s ++ dquote
           | _ => _transpile_element_expression lv1 arg
           end) args
    = map (fun arg : expr =>
           match arg with
           | Constant (CStr s) => dquote ++ s ++ dquote
           | _ => _transpile_element_expression lv2 arg
           end) args).
  { apply map_ext_Forall_string. eapply Forall_impl; [ | exact H].
    intros arg Harg. destruct arg as [[ | | | ] | | | | | | | | | ];
      solve [reflexivity | exact Harg]. }
  rewrite Hchildren.
  rewrite (fold_left_pointwise
             (fun props keyword =>
                dict_set prop_name_eqb props (rename_prop (fst keyword))
                  (_transpile_prop_value lv1 (snd keyword)))
             (fun props keyword =>
                dict_set prop_name_eqb props (rename_prop (fst keyword))
                  (_transpile_prop_value lv2 (snd keyword)))).
  - reflexivity.
  - intros props keyword. now rewrite (transpile_prop_value_scope lv1 lv2).
Qed.

Lemma transpile_statement_scope (lv1 lv2 : scope) (s : stmt) :
  _transpile_statement lv1 s = _transpile_statement lv2 s.
Proof.
  destruct s as [ | | | [value | ] | value | ]; try reflexivity.
  - simpl. now rewrite (transpile_expression_scope lv1 lv2).
  - destruct value; try reflexivity.
    simpl. unfold _transpile_method_call.
    destruct (is_self_attr "set_state" value); [ | reflexivity].
    destruct args as [ | first rest]; [reflexivity | ].
    now rewrite (transpile_expression_scope lv1 lv2).
Qed.

Lemma transpile_method_to_js_scope (lv1 lv2 : scope) (mi : method_info) :
  _transpile_method_to_js lv1 mi = _transpile_method_to_js lv2 mi.
Proof.
  unfold _transpile_method_to_js.
  destruct (is_lifecycle (method_name mi)); [reflexivity | ].
  rewrite !method_body_fold. do 4 f_equal.
  apply flat_map_ext. intros s.
  now rewrite (transpile_statement_scope lv1 lv2).
Qed.

Lemma method_lines_scope (lv1 lv2 : scope) (ms : list (string * method_info)) :
  method_lines lv1 ms = method_lines lv2 ms.
Proof.
  unfold method_lines. apply fold_left_pointwise.
  intros js_lines [mname mi].
  now rewrite (transpile_method_to_js_scope lv1 lv2).
Qed.

(** The render method starts from an empty scope whatever the attribute held:
    its text and the scope it leaves are the same from any incoming scope. *)
Lemma transpile_render_method_scope (lv1 lv2 : scope) (render_body : list stmt) :
  _transpile_render_method lv1 render_body = _transpile_render_method lv2 render_body.
Proof. reflexivity. Qed.

Lemma generate_js_component_scope (lv1 lv2 : scope) (info : component_info) :
  fst (_generate_js_component lv1 info) = fst (_generate_js_component lv2 info).
Proof.
  unfold _generate_js_component.
  rewrite (method_lines_scope lv1 lv2).
  destruct (render_method info) as [rm | ]; [ | reflexivity].
  rewrite (transpile_render_method_scope lv1 lv2).
  destruct (_transpile_render_method lv2 (method_body rm)). reflexivity.
Qed.

(** C9: the text [transpile_component] returns for a class does not depend on
    the state of the transpiler it is called on (the registry and the scope
    left by earlier calls), so transpiling the same class again, with any
    calls in between, gives the same text; the render method starts from an
    empty scope whatever earlier calls left. *)
Theorem C9_transpilation_deterministic
    (self1 self2 : transpiler) (tree : module_) (class_name : string) :
  fst (transpile_component self1 tree class_name)
  = fst (transpile_component self2 tree class_name)
  /\ forall render_body,
       _transpile_render_method (local_variables self1) render_body
       = _transpile_render_method None render_body.
Proof.
  split; [ | reflexivity].
  unfold transpile_component.
  destruct (find_class_def (walk tree) class_name) as [[node_name class_body] | ];
    [ | reflexivity].
  pose proof (generate_js_component_scope (local_variables self1) (local_variables self2)
                (_analyze_component_class node_name class_body)) as Hgen.
  destruct (_generate_js_component (local_variables self1) _) as [js1 l1].
  destruct (_generate_js_component (local_variables self2) _) as [js2 l2].
  simpl in *. now rewrite Hgen.
Qed.

(** *** Locating the class declaration (C3) *)

Lemma declares_class_unfold (expected : string) (node : stmt) :
  declares_class expected node
  = is_class_named expected node
    || existsb (declares_class expected) (child_nodes node).
Proof. destruct node; reflexivity. Qed.

Lemma node_count_unfold (node : stmt) :
  node_count node = S (forest_count (child_nodes node)).
Proof. destruct node; reflexivity. Qed.

Lemma forest_count_app (a b : list stmt) :
  forest_count (app a b) = forest_count a + forest_count b.
Proof. unfold forest_count. now rewrite map_app, list_sum_app. Qed.

Lemma find_class_def_cons (node : stmt) (rest : list stmt) (expected : string) :
  find_class_def (node :: rest) expected
  = if is_class_named expected node
    then match node with
         | ClassDef node_name body => Some (node_name, body)
         | _ => None
         end
    else find_class_def rest expected.
Proof.
  destruct node; reflexivity.
Qed.

(** The walk meets no class of the expected name when the tree holds none. *)
Lemma walk_queue_finds_nothing (expected : string) (fuel : nat) (todo : list stmt) :
  existsb (declares_class expected) todo = false ->
  find_class_def (walk_queue fuel todo) expected = None.
Proof.
  revert todo. induction fuel as [ | fuel IH]; intros todo Hnone; simpl.
  - reflexivity.
  - destruct todo as [ | node rest]; [reflexivity | ].
    simpl in Hnone. rewrite declares_class_unfold in Hnone.
    apply orb_false_iff in Hnone. destruct Hnone as [Hnode Hrest].
    apply orb_false_iff in Hnode. destruct Hnode as [Hhere Hbelow].
    rewrite find_class_def_cons, Hhere.
    apply IH. rewrite existsb_app, Hrest, Hbelow. reflexivity.
Qed.

(** The walk, given fuel for every node, meets a class of the expected name
    when the tree holds one. *)
Lemma walk_queue_finds_class (expected : string) (fuel : nat) (todo : list stmt) :
  existsb (declares_class expected) todo = true ->
  forest_count todo <= fuel ->
  exists class_body,
    find_class_def (walk_queue fuel todo) expected = Some (expected, class_body).
Proof.
  revert todo. induction fuel as [ | fuel IH]; intros todo Hsome Hfuel.
  - destruct todo as [ | node rest]; [discriminate Hsome | ].
    unfold forest_count in Hfuel. simpl in Hfuel.
    rewrite node_count_unfold in Hfuel. lia.
  - destruct todo as [ | node rest]; [discriminate Hsome | ].
    simpl walk_queue. rewrite find_class_def_cons.
    destruct (is_class_named expected node) eqn:Hhere.
    + destruct node; try discriminate Hhere.
      simpl in Hhere. apply String.eqb_eq in Hhere. subst.
      eexists. reflexivity.
    + apply IH.
      * simpl in Hsome. rewrite declares_class_unfold, Hhere in Hsome.
        rewrite existsb_app. simpl in Hsome.
        apply orb_true_iff in Hsome. apply orb_true_iff. tauto.
      * rewrite forest_count_app.
        change (forest_count (node :: rest)) with (node_count node + forest_count rest) in Hfuel.
        rewrite node_count_unfold in Hfuel. lia.
Qed.

Lemma find_class_def_present (tree : module_) (class_name : string) :
  tree_declares tree class_name = true ->
  exists class_body,
    find_class_def (walk tree) class_name = Some (class_name, class_body).
Proof.
  intros H. apply walk_queue_finds_class; [exact H | apply Nat.le_refl].
Qed.

(** C3: when the tree holds no class declaration of the expected name,
    [transpile_component] raises the error and leaves the transpiler, hence
    the registry of components, exactly as it was. *)
Theorem C3_declaration_not_found
    (self : transpiler) (tree : module_) (class_name : string) :
  tree_declares tree class_name = false ->
  transpile_component self tree class_name
  = (Raise (ValueError ("Could not find class definition for " ++ class_name)), self)
  /\ components (snd (transpile_component self tree class_name)) = components self.
Proof.
  intros Hnone. unfold transpile_component, walk.
  rewrite (walk_queue_finds_nothing class_name _ _ Hnone). split; reflexivity.
Qed.

Lemma C3_declaration_not_found_witness :
  transpile_component
    {| components := [("Counter", "function Counter(props) {}")]; local_variables := None |}
    (Module_ [ClassDef "Greeting" [FunctionDef "render" ["self"] [Return None]]])
    "Welcome"
  = (Raise (ValueError ("Could not find class definition for " ++ "Welcome")),
     {| components := [("Counter", "function Counter(props) {}")]; local_variables := None |})
  /\ components
       (snd (transpile_component
               {| components := [("Counter", "function Counter(props) {}")];
                  local_variables := None |}
               (Module_ [ClassDef "Greeting" [FunctionDef "render" ["self"] [Return None]]])
               "Welcome"))
     = [("Counter", "function Counter(props) {}")].
Proof.
  apply (C3_declaration_not_found
           {| components := [("Counter", "function Counter(props) {}")];
              local_variables := None |}
           (Module_ [ClassDef "Greeting" [FunctionDef "render" ["self"] [Return None]]])
           "Welcome").
  reflexivity.
Defined.

(** *** Unsupported constructs (C4) *)

Lemma render_step_unsupported (st : render_loop) (s : stmt) :
  supported_stmt s = false -> render_step st s = st.
Proof. destruct s; intros H; try discriminate H; reflexivity. Qed.

Lemma transpile_statement_unsupported (lv : scope) (s : stmt) :
  supported_stmt s = false -> _transpile_statement lv s = "".
Proof. destruct s; intros H; try discriminate H; reflexivity. Qed.

(** Once the class is located nothing can fail. *)
Lemma transpile_component_succeeds (self : transpiler) (tree : module_) (class_name : string) :
  tree_declares tree class_name = true ->
  exists js_code, fst (transpile_component self tree class_name) = Ok js_code.
Proof.
  intros Hdecl. destruct (find_class_def_present tree class_name Hdecl) as [class_body Hfind].
  unfold transpile_component. rewrite Hfind.
  destruct (_generate_js_component _ _) as [js_code locals'].
  exists js_code. reflexivity.
Qed.

(** C4: an expression of a kind outside the supported set is emitted as
    [null], in expression and in element position; a statement that is no
    expression statement, assignment or return is emitted as the empty text
    and leaves no line in a handler and no trace in a render body; and the
    call succeeds for every tree that declares the class. *)
Theorem C4_unsupported_degrades
    (self : transpiler) (tree : module_) (class_name : string)
    (lv : scope) (e : expr) (s : stmt)
    (mname : string) (margs : list string) (pre post : list stmt) :
  supported_expr e = false ->
  supported_stmt s = false ->
  tree_declares tree class_name = true ->
  _transpile_expression lv e = "null"
  /\ _transpile_element_expression lv e = "null"
  /\ _transpile_statement lv s = ""
  /\ _transpile_method_to_js lv (_analyze_method mname margs (app pre (s :: post)))
     = _transpile_method_to_js lv (_analyze_method mname margs (app pre post))
  /\ _transpile_render_method lv (app pre (s :: post))
     = _transpile_render_method lv (app pre post)
  /\ exists js_code, fst (transpile_component self tree class_name) = Ok js_code.
Proof.
  intros He Hs Hdecl.
  repeat split.
  - destruct e; try discriminate He; reflexivity.
  - destruct e; try discriminate He; reflexivity.
  - now apply transpile_statement_unsupported.
  - unfold _transpile_method_to_js, _analyze_method. cbn [method_name method_body].
    destruct (is_lifecycle mname); [reflexivity | ].
    rewrite !method_body_fold, !flat_map_app. cbn [flat_map].
    rewrite (transpile_statement_unsupported lv s Hs). reflexivity.
  - unfold _transpile_render_method.
    rewrite !fold_left_app. cbn [fold_left].
    rewrite (render_step_unsupported _ s Hs). reflexivity.
  - now apply transpile_component_succeeds.
Qed.

Lemma C4_unsupported_degrades_witness :
  _transpile_expression None (OtherExpr "Compare") = "null"
  /\ _transpile_element_expression None (OtherExpr "Compare") = "null"
  /\ _transpile_statement None (OtherStmt "For" [Expr (Name "x")]) = ""
  /\ _transpile_method_to_js None
       (_analyze_method "reset" ["self"]
          (app [set_state_stmt [] []] (OtherStmt "For" [Expr (Name "x")] :: [])))
     = _transpile_method_to_js None
         (_analyze_method "reset" ["self"] (app [set_state_stmt [] []] []))
  /\ _transpile_render_method None
       (app [set_state_stmt [] []] (OtherStmt "For" [Expr (Name "x")] :: []))
     = _transpile_render_method None (app [set_state_stmt [] []] [])
  /\ exists js_code,
       fst (transpile_component new_transpiler
              (Module_ [ClassDef "Broken"
                          [FunctionDef "render" ["self"]
                             [OtherStmt "For" [Expr (Name "x")];
                              Return (Some (OtherExpr "Compare"))]]])
              "Broken")
       = Ok js_code.
Proof.
  apply (C4_unsupported_degrades new_transpiler
           (Module_ [ClassDef "Broken"
                       [FunctionDef "render" ["self"]
                          [OtherStmt "For" [Expr (Name "x")];
                           Return (Some (OtherExpr "Compare"))]]])
           "Broken" None (OtherExpr "Compare") (OtherStmt "For" [Expr (Name "x")])
           "reset" ["self"] [set_state_stmt [] []] []);
    reflexivity.
Defined.

(** *** A component without a render method (C7) *)

Lemma analyze_fold_name (body : list stmt) (info : component_info) :
  name (fold_left analyze_node body info) = name info.
Proof.
  revert info. induction body as [ | node body IH]; intros info; simpl.
  - reflexivity.
  - rewrite IH. destruct node; try reflexivity.
    simpl. destruct (String.eqb name0 "__init__"); [reflexivity | ].
    destruct (String.eqb name0 "render"); reflexivity.
Qed.

Lemma analyze_fold_no_render (body : list stmt) (info : component_info) :
  existsb (is_method_named "render") body = false ->
  render_method (fold_left analyze_node body info) = render_method info.
Proof.
  revert info. induction body as [ | node body IH]; intros info Hnone; simpl.
  - reflexivity.
  - simpl in Hnone. apply orb_false_iff in Hnone. destruct Hnone as [Hnode Hbody].
    rewrite (IH _ Hbody). destruct node; try reflexivity.
    simpl in Hnode. simpl. rewrite Hnode.
    destruct (String.eqb name0 "__init__"); reflexivity.
Qed.

(** C7: when the located class has no method named [render], the call succeeds
    and the emitted function is the header, the state hook and the handlers,
    then the line [return null;] and the closing brace. *)
Theorem C7_missing_render_returns_null
    (self : transpiler) (tree : module_) (class_name : string) (class_body : list stmt) :
  find_class_def (walk tree) class_name = Some (class_name, class_body) ->
  existsb (is_method_named "render") class_body = false ->
  let info := _analyze_component_class class_name class_body in
  render_method info = None
  /\ fst (transpile_component self tree class_name)
     = Ok (join nl
             (app (app (app ["function " ++ class_name ++ "(props) {"]
                            (state_lines (initial_state info)))
                       (method_lines (local_variables self) (methods info)))
                  ["  return null;"; "}"])).
Proof.
  intros Hfind Hnone info.
  assert (Hrender : render_method info = None)
    by (unfold info, _analyze_component_class; now rewrite analyze_fold_no_render).
  split; [exact Hrender | ].
  unfold transpile_component. rewrite Hfind.
  unfold _generate_js_component. fold info. rewrite Hrender.
  unfold info at 1, _analyze_component_class. rewrite analyze_fold_name.
  reflexivity.
Qed.

Lemma C7_missing_render_returns_null_witness :
  fst (transpile_component new_transpiler
         (Module_ [ClassDef "Plain"
                     [FunctionDef "__init__" ["self"]
                        [Assign [Attribute (Name "self") "state"]
                           (Dict [(Some (Constant (CStr "count")), Constant (CInt 0))])]]])
         "Plain")
  = Ok ("function Plain(props) {" ++ nl
        ++ "  const [state, setState] = React.useState({count: 0});" ++ nl
        ++ nl
        ++ "  return null;" ++ nl
        ++ "}").
Proof.
  exact (proj2 (C7_missing_render_returns_null new_transpiler
                  (Module_ [ClassDef "Plain"
                              [FunctionDef "__init__" ["self"]
                                 [Assign [Attribute (Name "self") "state"]
                                    (Dict [(Some (Constant (CStr "count")),
                                            Constant (CInt 0))])]]])
                  "Plain" _ eq_refl eq_refl)).
Defined.

(** *** Render bodies and their return statements (C10) *)

Lemma render_fold_no_return (body : list stmt) (st : render_loop) :
  existsb is_return body = false ->
  return_statement (fold_left render_step body st) = return_statement st.
Proof.
  revert st. induction body as [ | s body IH]; intros st Hnone; simpl.
  - reflexivity.
  - simpl in Hnone. apply orb_false_iff in Hnone. destruct Hnone as [Hs Hbody].
    rewrite (IH _ Hbody). destruct s; try reflexivity; try discriminate Hs.
    simpl. destruct (_transpile_render_assignment _ _ _) as [[js_assign | ] locals'];
      reflexivity.
Qed.

(** A step of the loop reads the scope and the statements collected so far,
    never the return statement recorded. *)
Lemma render_step_agree (st st' : render_loop) (s : stmt) :
  loop_locals st = loop_locals st' ->
  js_statements st = js_statements st' ->
  loop_locals (render_step st s) = loop_locals (render_step st' s)
  /\ js_statements (render_step st s) = js_statements (render_step st' s).
Proof.
  intros Hl Hj. destruct s; simpl; try (split; assumption).
  rewrite Hl.
  destruct (_transpile_render_assignment _ _ _) as [[js_assign | ] locals'];
    simpl; rewrite ?Hj; split; reflexivity.
Qed.

Lemma render_fold_drop_returns (body : list stmt) (st st' : render_loop) :
  loop_locals st = loop_locals st' ->
  js_statements st = js_statements st' ->
  loop_locals (fold_left render_step body st)
  = loop_locals (fold_left render_step (filter (fun s => negb (is_return s)) body) st')
  /\ js_statements (fold_left render_step body st)
     = js_statements (fold_left render_step (filter (fun s => negb (is_return s)) body) st').
Proof.
  revert st st'. induction body as [ | s body IH]; intros st st' Hl Hj; simpl.
  - split; assumption.
  - destruct (is_return s) eqn:Hs; simpl.
    + destruct s; try discriminate Hs. apply IH; assumption.
    + destruct (render_step_agree st st' s Hl Hj) as [Hl' Hj']. apply IH; assumption.
Qed.

(** *** Initial-state extraction (C5) *)

Lemma extract_targets_no_state (st : state_dict) (targets : list expr) (value : expr) :
  existsb (is_self_attr "state") targets = false ->
  extract_targets st targets value = st.
Proof.
  unfold extract_targets. revert st.
  induction targets as [ | target targets IH]; intros st Hnone; simpl.
  - reflexivity.
  - simpl in Hnone. apply orb_false_iff in Hnone. destruct Hnone as [Ht Hts].
    rewrite Ht. now apply IH.
Qed.

Lemma extract_targets_not_literal (st : state_dict) (targets : list expr) (value : expr) :
  (forall items, value <> Dict items) ->
  extract_targets st targets value = st.
Proof.
  intros Hvalue. unfold extract_targets. revert st.
  induction targets as [ | target targets IH]; intros st; simpl.
  - reflexivity.
  - rewrite <- (IH st) at 2. f_equal.
    destruct (is_self_attr "state" target); [ | reflexivity].
    destruct value; try reflexivity. now destruct (Hvalue items).
Qed.

Lemma extract_stmt_skips (st : state_dict) (s : stmt) :
  is_literal_state_assign s = false -> extract_stmt st s = st.
Proof.
  destruct s as [ | | targets value | | | ]; try reflexivity.
  intros Hs. simpl.
  destruct value; try (apply extract_targets_not_literal; intros items; discriminate).
  simpl in Hs. now apply extract_targets_no_state.
Qed.

(** Extraction reads the assignments of a dictionary literal to [self.state]
    and nothing else. *)
Lemma extract_fold_filter (body : list stmt) (st : state_dict) :
  fold_left extract_stmt body st
  = fold_left extract_stmt (filter is_literal_state_assign body) st.
Proof.
  revert st. induction body as [ | s body IH]; intros st; simpl.
  - reflexivity.
  - destruct (is_literal_state_assign s) eqn:Hs; simpl.
    + apply IH.
    + rewrite (extract_stmt_skips st s Hs). apply IH.
Qed.

Lemma filter_none {A : Type} (f : A -> bool) (l : list A) :
  existsb f l = false -> filter f l = [].
Proof.
  induction l as [ | x l IH]; simpl; intros H.
  - reflexivity.
  - apply orb_false_iff in H. destruct H as [Hx Hl]. rewrite Hx. now apply IH.
Qed.

Lemma extract_initial_state_filter (body : list stmt) :
  _extract_initial_state body
  = _extract_initial_state (filter is_literal_state_assign body).
Proof. apply extract_fold_filter. Qed.

Lemma analyze_fold_no_init (body : list stmt) (info : component_info) :
  existsb (is_method_named "__init__") body = false ->
  initial_state (fold_left analyze_node body info) = initial_state info.
Proof.
  revert info. induction body as [ | node body IH]; intros info Hnone; simpl.
  - reflexivity.
  - simpl in Hnone. apply orb_false_iff in Hnone. destruct Hnone as [Hnode Hbody].
    rewrite (IH _ Hbody). destruct node; try reflexivity.
    simpl in Hnode. simpl. rewrite Hnode.
    destruct (String.eqb name0 "render"); reflexivity.
Qed.

(** The initial state of a class is extracted from its last constructor. *)
Lemma analyze_initial_state
    (class_name : string) (before after : list stmt) (args : list string)
    (init_body : list stmt) :
  existsb (is_method_named "__init__") after = false ->
  initial_state
    (_analyze_component_class class_name
       (app before (FunctionDef "__init__" args init_body :: after)))
  = _extract_initial_state init_body.
Proof.
  intros Hafter. unfold _analyze_component_class.
  rewrite fold_left_app. cbn [fold_left].
  rewrite (analyze_fold_no_init _ _ Hafter). reflexivity.
Qed.

(** C5: extraction reads only the assignments of a dictionary literal to
    [self.state] in the constructor.  The literal [{'count': 0}] gives the
    hook initializer [{count: 0}], with that key alone; a constructor in which
    no such assignment has a literal right-hand side gives the empty state
    and no hook declaration. *)
Theorem C5_initial_state_extraction
    (class_name : string) (before after : list stmt) (args : list string)
    (init_other init_pre init_post : list stmt) :
  existsb (is_method_named "__init__") after = false ->
  existsb is_literal_state_assign init_other = false ->
  existsb is_literal_state_assign init_pre = false ->
  existsb is_literal_state_assign init_post = false ->
  let info_other :=
    _analyze_component_class class_name
      (app before (FunctionDef "__init__" args init_other :: after)) in
  let info_count :=
    _analyze_component_class class_name
      (app before
         (FunctionDef "__init__" args (app init_pre (count_state_assign :: init_post))
            :: after)) in
  initial_state info_other = []
  /\ state_lines (initial_state info_other) = []
  /\ initial_state info_count = [(CStr "count", CInt 0)]
  /\ state_lines (initial_state info_count)
     = ["  const [state, setState] = React.useState({count: 0});"; ""].
Proof.
  intros Hafter Hother Hpre Hpost info_other info_count.
  assert (H1 : initial_state info_other = []).
  { unfold info_other. rewrite (analyze_initial_state _ _ _ _ _ Hafter).
    rewrite extract_initial_state_filter, (filter_none _ _ Hother). reflexivity. }
  assert (H2 : initial_state info_count = [(CStr "count", CInt 0)]).
  { unfold info_count. rewrite (analyze_initial_state _ _ _ _ _ Hafter).
    rewrite extract_initial_state_filter, filter_app. cbn [filter].
    change (is_literal_state_assign count_state_assign) with true. cbv iota.
    rewrite (filter_none _ _ Hpre), (filter_none _ _ Hpost). reflexivity. }
  rewrite H1, H2. repeat split; reflexivity.
Qed.

Lemma C5_initial_state_extraction_witness :
  let info_other :=
    _analyze_component_class "Counter"
      (app [Expr (Constant (CStr "doc"))]
           (FunctionDef "__init__" ["self"]
              [Assign [Attribute (Name "self") "state"] (Call (Name "load") [] []);
               Assign [Attribute (Name "self") "state"] (Name "saved")]
            :: [FunctionDef "render" ["self"] [Return None]])) in
  let info_count :=
    _analyze_component_class "Counter"
      (app [Expr (Constant (CStr "doc"))]
           (FunctionDef "__init__" ["self"]
              (app [Assign [Attribute (Name "self") "title"] (Dict [])]
                   (count_state_assign :: [Expr (Name "done")]))
            :: [FunctionDef "render" ["self"] [Return None]])) in
  initial_state info_other = []
  /\ state_lines (initial_state info_other) = []
  /\ initial_state info_count = [(CStr "count", CInt 0)]
  /\ state_lines (initial_state info_count)
     = ["  const [state, setState] = React.useState({count: 0});"; ""].
Proof.
  exact (C5_initial_state_extraction "Counter"
           [Expr (Constant (CStr "doc"))] [FunctionDef "render" ["self"] [Return None]]
           ["self"]
           [Assign [Attribute (Name "self") "state"] (Call (Name "load") [] []);
            Assign [Attribute (Name "self") "state"] (Name "saved")]
           [Assign [Attribute (Name "self") "title"] (Dict [])]
           [Expr (Name "done")]
           eq_refl eq_refl eq_refl eq_refl).
Defined.

(** *** The [props.get] fallback (C6) *)

Lemma rstrip_app_dquote (s : string) :
  rstrip quote_chars (s ++ dquote) = rstrip quote_chars s.
Proof.
  induction s as [ | c s IH].
  - reflexivity.
  - cbn [append rstrip]. now rewrite IH.
Qed.

Lemma rstrip_unquoted_end (s : string) :
  ends_with_quote s = false -> rstrip quote_chars s = s.
Proof.
  induction s as [ | c s IH]; intros Hend.
  - reflexivity.
  - cbn [rstrip]. destruct s as [ | d s].
    + cbn [ends_with_quote] in Hend. cbn [rstrip]. now rewrite Hend.
    + rewrite IH by exact Hend. reflexivity.
Qed.

(** [strip] gives the key back from its quoted text when the key neither
    begins nor ends with a quote character. *)
Lemma strip_quoted_key (key : string) :
  starts_with_quote key = false ->
  ends_with_quote key = false ->
  strip quote_chars (dquote ++ key ++ dquote) = key.
Proof.
  intros Hstart Hend. unfold strip.
  change (dquote ++ key ++ dquote) with (String (ascii_of_nat 34) (key ++ dquote)).
  cbn [lstrip]. change (char_in (ascii_of_nat 34) quote_chars) with true. cbv iota.
  destruct key as [ | c key].
  - reflexivity.
  - cbn [append lstrip]. cbn [starts_with_quote] in Hstart. rewrite Hstart.
    change (String c (key ++ dquote)) with (String c key ++ dquote).
    rewrite rstrip_app_dquote. now apply rstrip_unquoted_end.
Qed.

Lemma props_get_call (lv : scope) (key : string) (default : expr) :
  _transpile_expression lv (props_get key default)
  = "(props." ++ strip quote_chars (dquote ++ key ++ dquote) ++ " || "
      ++ _transpile_expression lv default ++ ")".
Proof. reflexivity. Qed.

(** For a key that neither begins nor ends with a quote character the call
    [self.props.get(key, default)] is emitted as [(props.key || default)]. *)
Lemma props_get_plain_key (lv : scope) (key : string) (default : expr) :
  starts_with_quote key = false ->
  ends_with_quote key = false ->
  _transpile_expression lv (props_get key default)
  = "(props." ++ key ++ " || " ++ _transpile_expression lv default ++ ")".
Proof.
  intros Hstart Hend. rewrite props_get_call.
  now rewrite strip_quoted_key.
Qed.

(** [self.props.get('name', self.state['name'])]. *)
Example props_get_state_default (lv : scope) :
  _transpile_expression lv (props_get "name" (state_subscript "name"))
  = "(props.name || state.name)".
Proof. reflexivity. Qed.

(** C6 fails on a key that begins with a quote character: for
    [self.props.get("'a", 1)] the code emits [(props.a || 1)], the quote of the
    key being stripped together with the quotes the transpiler added, and not
    the key itself after [props.]. *)
Theorem C6_quoted_key_is_stripped :
  _transpile_expression None (props_get "'a" (Constant (CInt 1))) = "(props.a || 1)"
  /\ _transpile_expression None (props_get "'a" (Constant (CInt 1)))
     <> "(props." ++ "'a" ++ " || "
          ++ _transpile_expression None (Constant (CInt 1)) ++ ")".
Proof. split; [reflexivity | vm_compute; discriminate]. Qed.

(** *** The registry and the aggregated module (C8) *)

Lemma dict_keys_set (d : list (string * string)) (k v : string) :
  dict_keys (dict_set String.eqb d k v) = note_name (dict_keys d) k.
Proof.
  unfold note_name, dict_keys.
  induction d as [ | [k' v'] d IH]; simpl.
  - reflexivity.
  - destruct (String.eqb k' k); simpl.
    + reflexivity.
    + rewrite IH.
      destruct (existsb (fun known => String.eqb known k) (map fst d)); reflexivity.
Qed.

Lemma note_name_extends (names : list string) (seen : list string) :
  exists added, fold_left note_name names seen = app seen added.
Proof.
  revert seen. induction names as [ | n names IH]; intros seen; simpl.
  - exists []. now rewrite app_nil_r.
  - destruct (IH (note_name seen n)) as [added Hadded]. rewrite Hadded.
    unfold note_name.
    destruct (existsb (fun known => String.eqb known n) seen).
    + now exists added.
    + exists (n :: added). now rewrite <- app_assoc.
Qed.

Lemma transpile_component_registers
    (self : transpiler) (tree : module_) (class_name : string) :
  is_ok (fst (transpile_component self tree class_name)) = true ->
  components (snd (transpile_component self tree class_name))
  = register (components self)
      (class_name, code_of (fst (transpile_component self tree class_name))).
Proof.
  unfold transpile_component.
  destruct (find_class_def (walk tree) class_name) as [[node_name class_body] | ];
    [ | discriminate].
  destruct (_generate_js_component _ _) as [js_code locals']. reflexivity.
Qed.

Lemma module_parts_fold (registry : list (string * string)) (acc : list string) :
  fold_left (fun (js_parts : list string) (entry : string * string) =>
               app js_parts [snd entry; ""])
            registry acc
  = app acc (flat_map (fun entry : string * string => [snd entry; ""]) registry).
Proof.
  revert acc. induction registry as [ | entry registry IH]; intros acc; simpl.
  - now rewrite app_nil_r.
  - rewrite IH, <- app_assoc. reflexivity.
Qed.

Lemma generate_complete_js_parts (self : transpiler) :
  components self <> [] ->
  generate_complete_js self
  = join nl ("// PyReact - Transpiled Components" :: ""
             :: flat_map (fun entry : string * string => [snd entry; ""]) (components self)).
Proof.
  intros Hsome. unfold generate_complete_js.
  destruct (components self) as [ | entry registry] eqn:Hc; [contradiction | ].
  rewrite module_parts_fold. reflexivity.
Qed.

Lemma transpile_all_cons
    (self : transpiler) (tree : module_) (class_name : string)
    (rest : list (module_ * string)) :
  transpile_all self ((tree, class_name) :: rest)
  = (fst (transpile_component self tree class_name)
       :: fst (transpile_all (snd (transpile_component self tree class_name)) rest),
     snd (transpile_all (snd (transpile_component self tree class_name)) rest)).
Proof.
  simpl. destruct (transpile_component self tree class_name) as [r self'].
  simpl. destruct (transpile_all self' rest) as [rs self'']. reflexivity.
Qed.

(** The module text of that run: [Zeta] before [Alpha]. *)
Example module_text_first_transpiled_order :
  generate_complete_js
    (snd (transpile_all new_transpiler
            [(Module_ [ClassDef "Zeta"
                         [FunctionDef "render" ["self"] [Return (Some (Name "z"))]]],
              "Zeta");
             (Module_ [ClassDef "Alpha" []], "Alpha")]))
  = "// PyReact - Transpiled Components" ++ nl
    ++ nl
    ++ "function Zeta(props) {" ++ nl
    ++ "  return z;" ++ nl
    ++ "}" ++ nl
    ++ nl
    ++ "function Alpha(props) {" ++ nl
    ++ "  return null;" ++ nl
    ++ "}" ++ nl.
Proof. reflexivity. Qed.

(* ================================================================= *)
(** ** Further properties of the transpiler *)

(** *** Binary operations *)

Lemma append_assoc_string (a b c : string) : (a ++ b) ++ c = a ++ (b ++ c).
Proof. induction a as [ | ch a IH]; simpl; [reflexivity | now rewrite IH]. Qed.

(** X1: a binary operation is the text of the left operand, the operator and
    the text of the right operand; the second look at a state subscript on
    the left changes nothing, and an operator other than the four arithmetic
    ones is dropped, leaving a space. *)
Theorem X1_binary_operation_text (lv : scope) (lhs rhs : expr) (op : operator) :
  _transpile_expression lv (BinOp lhs op rhs)
  = _transpile_expression lv lhs ++ op_text op ++ _transpile_expression lv rhs.
Proof.
  cbn [_transpile_expression]. unfold _transpile_binary_operation.
  assert (Hleft :
    match lhs with
    | Subscript value slice =>
        if is_self_attr "state" value then _transpile_subscript value slice
        else _transpile_expression lv lhs
    | _ => _transpile_expression lv lhs
    end = _transpile_expression lv lhs).
  { destruct lhs; try reflexivity.
    destruct (is_self_attr "state" lhs1); reflexivity. }
  rewrite Hleft. destruct op; reflexivity.
Qed.

Lemma binary_operation_text (lv : scope) (lhs rhs : expr) (op : operator) :
  _transpile_expression lv (BinOp lhs op rhs)
  = _transpile_expression lv lhs ++ op_text op ++ _transpile_expression lv rhs.
Proof.
  cbn [_transpile_expression]. unfold _transpile_binary_operation.
  destruct lhs; try (destruct op; reflexivity).
  destruct (is_self_attr "state" lhs1); destruct op; reflexivity.
Qed.

(** X2: no parentheses are emitted, so the grouping of nested binary
    operations is lost: [(a op1 b) op2 c] and [a op1 (b op2 c)] give the same
    text. *)
Theorem X2_binary_grouping_lost (lv : scope) (a b c : expr) (op1 op2 : operator) :
  _transpile_expression lv (BinOp (BinOp a op1 b) op2 c)
  = _transpile_expression lv (BinOp a op1 (BinOp b op2 c)).
Proof.
  rewrite !binary_operation_text, !append_assoc_string. reflexivity.
Qed.

(** *** Interpolated strings *)

(** X3: an f-string is a template literal whose parts are the literal text,
    unchanged, and each placeholder as the transpiled expression in a
    substitution; the tests on local names and on subscripts do not change
    the text, whatever the scope holds. *)
Theorem X3_f_string_text (lv : scope) (values : list (string + expr)) :
  _transpile_expression lv (JoinedStr values)
  = "`" ++ join "" (map fstring_part values) ++ "`".
Proof.
  cbn [_transpile_expression]. unfold _transpile_f_string. do 3 f_equal.
  apply map_ext. intros [text | e]; [reflexivity | ].
  unfold fstring_part.
  destruct e; try reflexivity;
    try (now rewrite (transpile_expression_scope lv None)).
  destruct lv as [locals | ]; [ | reflexivity].
  destruct (dict_mem String.eqb locals id); reflexivity.
Qed.

(** *** Handler bodies *)

Lemma flat_map_filter_map {A B : Type} (keep : A -> bool) (f : A -> B) (l : list A) :
  flat_map (fun x => if keep x then [f x] else []) l = map f (filter keep l).
Proof.
  induction l as [ | x l IH]; simpl; [reflexivity | ].
  destruct (keep x); simpl; now rewrite IH.
Qed.

Lemma statement_empty_iff (lv : scope) (s : stmt) :
  String.eqb (_transpile_statement lv s) "" = negb (emits_line s).
Proof.
  destruct s as [ | | | value | value | ]; try reflexivity.
  destruct value; try reflexivity.
  cbn [_transpile_statement emits_line]. unfold _transpile_method_call.
  destruct args as [ | first rest].
  - destruct (is_self_attr "set_state" value); reflexivity.
  - destruct (is_self_attr "set_state" value); reflexivity.
Qed.

(** X4: the handler emitted for a method that is not a lifecycle method has
    one line for each [return] and each call [self.set_state(...)] with an
    argument, in order, between its header and its closing line; every other
    statement of the body (an assignment, a call of another function, a call
    of [set_state] without argument, a compound statement) leaves nothing. *)
Theorem X4_handler_lines (lv : scope) (mi : method_info) :
  is_lifecycle (method_name mi) = false ->
  _transpile_method_to_js lv mi
  = Some (join nl
            (("const " ++ method_name mi ++ " = () => {")
             :: app (map (fun s => "    " ++ _transpile_statement lv s)
                         (filter emits_line (method_body mi)))
                    ["  };"])).
Proof.
  intros Hlife. unfold _transpile_method_to_js. rewrite Hlife, method_body_fold.
  do 2 f_equal. cbn [app]. do 2 f_equal.
  rewrite <- flat_map_filter_map. apply flat_map_ext. intros s.
  rewrite statement_empty_iff. destruct (emits_line s); reflexivity.
Qed.

Lemma X4_handler_lines_witness :
  _transpile_method_to_js None
    (_analyze_method "save" ["self"]
       [Assign [Name "x"] (Constant (CInt 1));
        Expr (Call (Name "print") [Name "x"] []);
        Expr (Call (Attribute (Name "self") "set_state") [] []);
        Expr (Call (Attribute (Name "self") "set_state") [Name "x"] []);
        Return None])
  = Some (join nl
            ["const save = () => {";
             "    setState(prevState => ({...prevState, ...x}));";
             "    return null;";
             "  };"]).
Proof.
  exact (X4_handler_lines None
           (_analyze_method "save" ["self"]
              [Assign [Name "x"] (Constant (CInt 1));
               Expr (Call (Name "print") [Name "x"] []);
               Expr (Call (Attribute (Name "self") "set_state") [] []);
               Expr (Call (Attribute (Name "self") "set_state") [Name "x"] []);
               Return None])
           eq_refl).
Defined.

(** X5: the constructor, [render] and the lifecycle methods never produce a
    handler: the lines emitted for the methods are the same with and without
    such an entry. *)
Theorem X5_no_handler_for_special_methods
    (lv : scope) (before after : list (string * method_info))
    (mname : string) (mi : method_info) :
  String.eqb mname "__init__" || String.eqb mname "render"
    || is_lifecycle (method_name mi) = true ->
  method_lines lv (app before ((mname, mi) :: after))
  = method_lines lv (app before after).
Proof.
  intros Hspecial. rewrite !method_lines_app. f_equal.
  change ((mname, mi) :: after) with (app [(mname, mi)] after).
  rewrite method_lines_app.
  assert (Hnone : method_lines lv [(mname, mi)] = []).
  { unfold method_lines. cbn [fold_left].
    destruct (String.eqb mname "__init__" || String.eqb mname "render") eqn:Hn;
      [reflexivity | ].
    simpl in Hspecial. unfold _transpile_method_to_js. now rewrite Hspecial. }
  now rewrite Hnone.
Qed.

Lemma X5_no_handler_for_special_methods_witness :
  method_lines None
    (app [("reset", _analyze_method "reset" ["self"] [Return None])]
         (("component_did_mount",
           _analyze_method "component_did_mount" ["self"] [Return None]) :: []))
  = method_lines None
      (app [("reset", _analyze_method "reset" ["self"] [Return None])] []).
Proof.
  exact (X5_no_handler_for_special_methods None
           [("reset", _analyze_method "reset" ["self"] [Return None])] []
           "component_did_mount"
           (_analyze_method "component_did_mount" ["self"] [Return None])
           eq_refl).
Defined.

(** *** Render bodies with local assignments *)

Lemma transpile_element_optional_scope (lv1 lv2 : scope) (value : option expr) :
  transpile_element_optional lv1 value = transpile_element_optional lv2 value.
Proof.
  destruct value as [e | ]; [ | reflexivity].
  apply transpile_element_expression_scope.
Qed.

Lemma render_fold_assigns (bindings : list (string * expr)) (st : render_loop) :
  fold_left render_step (map local_assign bindings) st
  = {| loop_locals :=
         fold_left (fun locals b =>
                      dict_set String.eqb locals (fst b)
                        (_transpile_expression None (snd b)))
                   bindings (loop_locals st);
       js_statements := app (js_statements st) (map const_declaration bindings);
       return_statement := return_statement st |}.
Proof.
  revert st. induction bindings as [ | [var_name value] bindings IH]; intros st.
  - destruct st. simpl. now rewrite app_nil_r.
  - cbn [map fold_left]. rewrite IH. unfold local_assign at 1 2 3.
    cbn [render_step _transpile_render_assignment fst snd loop_locals js_statements
         return_statement].
    rewrite (transpile_expression_scope (Some (loop_locals st)) None).
    rewrite <- app_assoc. reflexivity.
Qed.

(** X6: a render body made of assignments to single names followed by a
    [return] is emitted as an immediately invoked arrow function: one [const]
    declaration per assignment, in order (a name assigned twice is declared
    twice), then the return of the element expression.  The value of an
    assignment goes through the expression transpiler, not the element
    transpiler. *)
Theorem X6_render_with_locals
    (lv : scope) (bindings : list (string * expr)) (value : option expr) :
  bindings <> [] ->
  fst (_transpile_render_method lv (app (map local_assign bindings) [Return value]))
  = "(() => { " ++ join "; " (map const_declaration bindings)
      ++ "; return " ++ transpile_element_optional None value ++ "; })()".
Proof.
  intros Hsome. unfold _transpile_render_method.
  rewrite fold_left_app, render_fold_assigns.
  cbn [fold_left render_step loop_locals js_statements return_statement app].
  destruct bindings as [ | b bindings]; [contradiction | ].
  cbn [map]. cbn [fst].
  now rewrite (transpile_element_optional_scope _ None).
Qed.

Lemma X6_render_with_locals_witness :
  fst (_transpile_render_method None
         (app (map local_assign
                 [("n", Constant (CInt 1)); ("box", Call (Name "div") [] []);
                  ("n", Constant (CInt 2))])
              [Return (Some (Call (Name "p") [Name "n"] []))]))
  = "(() => { const n = 1; const box = div(); const n = 2; "
      ++ "return React.createElement('p', null, [n]); })()".
Proof.
  exact (X6_render_with_locals None
           [("n", Constant (CInt 1)); ("box", Call (Name "div") [] []);
            ("n", Constant (CInt 2))]
           (Some (Call (Name "p") [Name "n"] []))
           ltac:(discriminate)).
Defined.

(** *** Initial state *)

(** X7: an initial-state value that is not a constant (a list, a nested
    dictionary, a call, a name) is stored as the text [_ast_to_js_value]
    gives for it, and that text is emitted between double quotes: the hook
    initializer holds a string, not the value. *)
Theorem X7_non_constant_state_value_is_quoted (key : string) (value : expr) :
  is_constant value = false ->
  let init_body :=
    [Assign [Attribute (Name "self") "state"]
       (Dict [(Some (Constant (CStr key)), value)])] in
  _extract_initial_state init_body = [(CStr key, CStr (_ast_to_js_value value))]
  /\ state_lines (_extract_initial_state init_body)
     = ["  const [state, setState] = React.useState({" ++ key ++ ": "
          ++ dquote ++ _ast_to_js_value value ++ dquote ++ "});"; ""].
Proof.
  intros Hvalue init_body.
  assert (Hstate : _extract_initial_state init_body
                   = [(CStr key, CStr (_ast_to_js_value value))]).
  { destruct value; try discriminate Hvalue; reflexivity. }
  split; [exact Hstate | ].
  rewrite Hstate. cbn [state_lines _dict_to_js_object map join py_str].
  rewrite !append_assoc_string. reflexivity.
Qed.

Lemma X7_non_constant_state_value_is_quoted_witness :
  _extract_initial_state
    [Assign [Attribute (Name "self") "state"]
       (Dict [(Some (Constant (CStr "items")),
               PyList [Constant (CInt 1); Constant (CInt 2)])])]
  = [(CStr "items", CStr "[1, 2]")]
  /\ state_lines
       (_extract_initial_state
          [Assign [Attribute (Name "self") "state"]
             (Dict [(Some (Constant (CStr "items")),
                     PyList [Constant (CInt 1); Constant (CInt 2)])])])
     = ["  const [state, setState] = React.useState({" ++ "items" ++ ": "
          ++ dquote ++ "[1, 2]" ++ dquote ++ "});"; ""].
Proof.
  exact (X7_non_constant_state_value_is_quoted "items"
           (PyList [Constant (CInt 1); Constant (CInt 2)]) eq_refl).
Defined.

(** *** Dictionaries never repeat a key *)

Lemma dict_set_keys {K V : Type} (key_eqb : K -> K -> bool)
    (d : list (K * V)) (k : K) (v : V) :
  dict_keys (dict_set key_eqb d k v)
  = if existsb (fun known => key_eqb known k) (dict_keys d)
    then dict_keys d
    else app (dict_keys d) [k].
Proof.
  unfold dict_keys. induction d as [ | [k' v'] d IH]; simpl.
  - reflexivity.
  - destruct (key_eqb k' k); simpl; [reflexivity | ].
    rewrite IH. destruct (existsb (fun known => key_eqb known k) (map fst d)); reflexivity.
Qed.

Lemma keys_distinct_snoc {K : Type} (key_eqb : K -> K -> bool) (keys : list K) (k : K) :
  keys_distinct key_eqb keys ->
  existsb (fun known => key_eqb known k) keys = false ->
  keys_distinct key_eqb (app keys [k]).
Proof.
  unfold keys_distinct. induction 1 as [ | a l Ha Hl IH]; simpl; intros Hfresh.
  - repeat constructor.
  - apply orb_false_iff in Hfresh. destruct Hfresh as [Hak Hrest].
    constructor; [ | now apply IH].
    apply Forall_app. split; [exact Ha | now repeat constructor].
Qed.

Lemma dict_set_keys_distinct {K V : Type} (key_eqb : K -> K -> bool)
    (d : list (K * V)) (k : K) (v : V) :
  keys_distinct key_eqb (dict_keys d) ->
  keys_distinct key_eqb (dict_keys (dict_set key_eqb d k v)).
Proof.
  intros Hd. rewrite dict_set_keys.
  destruct (existsb (fun known => key_eqb known k) (dict_keys d)) eqn:Hk.
  - exact Hd.
  - now apply keys_distinct_snoc.
Qed.

Lemma fold_left_invariant {A B : Type} (P : A -> Prop) (f : A -> B -> A) (l : list B) :
  (forall a b, P a -> P (f a b)) -> forall a, P a -> P (fold_left f l a).
Proof.
  intros Hstep. induction l as [ | b l IH]; intros a Ha; simpl.
  - exact Ha.
  - apply IH, Hstep, Ha.
Qed.

(** *** The registry across calls *)

Lemma dict_get_set_same (d : list (string * string)) (k v : string) :
  dict_get String.eqb (dict_set String.eqb d k v) k = Some v.
Proof.
  induction d as [ | [k' v'] d IH]; simpl.
  - now rewrite String.eqb_refl.
  - destruct (String.eqb k' k) eqn:Hk; simpl; rewrite Hk; [reflexivity | exact IH].
Qed.

Lemma dict_get_set_other (d : list (string * string)) (k v m : string) :
  String.eqb m k = false ->
  dict_get String.eqb (dict_set String.eqb d k v) m = dict_get String.eqb d m.
Proof.
  intros Hm. induction d as [ | [k' v'] d IH]; simpl.
  - rewrite String.eqb_sym. now rewrite Hm.
  - destruct (String.eqb k' k) eqn:Hk; simpl.
    + apply String.eqb_eq in Hk. subst k'.
      rewrite String.eqb_sym. now rewrite Hm.
    + destruct (String.eqb k' m); [reflexivity | exact IH].
Qed.

Lemma dict_set_twice (d : list (string * string)) (k v : string) :
  dict_set String.eqb (dict_set String.eqb d k v) k v = dict_set String.eqb d k v.
Proof.
  induction d as [ | [k' v'] d IH]; simpl.
  - now rewrite String.eqb_refl.
  - destruct (String.eqb k' k) eqn:Hk; simpl; rewrite Hk; [reflexivity | now rewrite IH].
Qed.

(** X9: after a call that returned, the registry holds the returned text
    under the class name, and what it holds under every other name is what it
    held before. *)
Theorem X9_registry_lookup
    (self : transpiler) (tree : module_) (class_name other : string) :
  is_ok (fst (transpile_component self tree class_name)) = true ->
  String.eqb other class_name = false ->
  dict_get String.eqb
    (components (snd (transpile_component self tree class_name))) class_name
  = Some (code_of (fst (transpile_component self tree class_name)))
  /\ dict_get String.eqb
       (components (snd (transpile_component self tree class_name))) other
     = dict_get String.eqb (components self) other.
Proof.
  intros Hok Hother. rewrite (transpile_component_registers _ _ _ Hok).
  unfold register. cbn [fst snd]. split.
  - apply dict_get_set_same.
  - now apply dict_get_set_other.
Qed.

Lemma X9_registry_lookup_witness :
  dict_get String.eqb
    (components
       (snd (transpile_component
               {| components := [("Counter", "function Counter(props) {}")];
                  local_variables := None |}
               (Module_ [ClassDef "Plain" []]) "Plain")))
    "Plain"
  = Some (code_of
            (fst (transpile_component
                    {| components := [("Counter", "function Counter(props) {}")];
                       local_variables := None |}
                    (Module_ [ClassDef "Plain" []]) "Plain")))
  /\ dict_get String.eqb
       (components
          (snd (transpile_component
                  {| components := [("Counter", "function Counter(props) {}")];
                     local_variables := None |}
                  (Module_ [ClassDef "Plain" []]) "Plain")))
       "Counter"
     = dict_get String.eqb [("Counter", "function Counter(props) {}")] "Counter".
Proof.
  exact (X9_registry_lookup
           {| components := [("Counter", "function Counter(props) {}")];
              local_variables := None |}
           (Module_ [ClassDef "Plain" []]) "Plain" "Counter" eq_refl eq_refl).
Defined.

Lemma generate_js_component_again (lv : scope) (info : component_info) :
  _generate_js_component (snd (_generate_js_component lv info)) info
  = _generate_js_component lv info.
Proof.
  unfold _generate_js_component.
  destruct (render_method info) as [rm | ].
  - destruct (_transpile_render_method lv (method_body rm)) as [render_js locals'] eqn:Hr.
    cbn [snd].
    rewrite (transpile_render_method_scope locals' lv), Hr.
    now rewrite (method_lines_scope locals' lv).
  - reflexivity.
Qed.

(** X10: transpiling a class twice in a row is the same as transpiling it
    once: the second call returns the same result and leaves the transpiler,
    registry and scope, as the first call left it. *)
Theorem X10_transpile_twice (self : transpiler) (tree : module_) (class_name : string) :
  transpile_component (snd (transpile_component self tree class_name)) tree class_name
  = transpile_component self tree class_name.
Proof.
  unfold transpile_component.
  destruct (find_class_def (walk tree) class_name) as [[node_name class_body] | ] eqn:Hfind.
  - pose proof (generate_js_component_again (local_variables self)
                  (_analyze_component_class node_name class_body)) as Hagain.
    destruct (_generate_js_component (local_variables self)
                (_analyze_component_class node_name class_body)) as [js_code locals'].
    cbn [snd local_variables components] in *.
    rewrite Hagain. now rewrite dict_set_twice.
  - cbn [snd]. reflexivity.
Qed.

Lemma transpile_component_failed (self : transpiler) (tree : module_) (class_name : string) :
  is_ok (fst (transpile_component self tree class_name)) = false ->
  snd (transpile_component self tree class_name) = self.
Proof.
  unfold transpile_component.
  destruct (find_class_def (walk tree) class_name) as [[node_name class_body] | ];
    [ | reflexivity].
  destruct (_generate_js_component _ _). discriminate.
Qed.

(** X11: over any run, with calls that fail among calls that return, the
    registry is what storing the texts of the calls that returned gives: a
    failed call changes nothing of what the others stored. *)
Theorem X11_failed_calls_leave_registry (classes : list (module_ * string))
    (self : transpiler) :
  components (snd (transpile_all self classes))
  = fold_left register
      (ok_entries (combine (map snd classes) (fst (transpile_all self classes))))
      (components self).
Proof.
  revert self. induction classes as [ | [tree class_name] classes IH]; intros self.
  - reflexivity.
  - rewrite transpile_all_cons. cbn [fst snd map combine].
    rewrite IH. unfold ok_entries at 2. cbn [flat_map fst snd].
    fold (ok_entries
            (combine (map snd classes)
               (fst (transpile_all (snd (transpile_component self tree class_name))
                       classes)))).
    destruct (fst (transpile_component self tree class_name)) as [js_code | e] eqn:Hr.
    + cbn [app fold_left].
      rewrite (transpile_component_registers self tree class_name) by now rewrite Hr.
      now rewrite Hr.
    + cbn [app].
      rewrite (transpile_component_failed self tree class_name) by now rewrite Hr.
      reflexivity.
Qed.

Lemma transpile_component_text_scope
    (self1 self2 : transpiler) (tree : module_) (class_name : string) :
  fst (transpile_component self1 tree class_name)
  = fst (transpile_component self2 tree class_name).
Proof.
  unfold transpile_component.
  destruct (find_class_def (walk tree) class_name) as [[node_name class_body] | ];
    [ | reflexivity].
  pose proof (generate_js_component_scope (local_variables self1) (local_variables self2)
                (_analyze_component_class node_name class_body)) as Hgen.
  destruct (_generate_js_component (local_variables self1) _) as [js1 l1].
  destruct (_generate_js_component (local_variables self2) _) as [js2 l2].
  simpl in *. now rewrite Hgen.
Qed.

(** X12: the results of a run are the results of the same calls made one by
    one on a new transpiler: no call changes what a later call returns. *)
Theorem X12_run_results_are_isolated (classes : list (module_ * string))
    (self : transpiler) :
  fst (transpile_all self classes)
  = map (fun class => fst (transpile_component new_transpiler (fst class) (snd class)))
        classes.
Proof.
  revert self. induction classes as [ | [tree class_name] classes IH]; intros self.
  - reflexivity.
  - rewrite transpile_all_cons. cbn [fst snd map].
    rewrite IH. f_equal. apply transpile_component_text_scope.
Qed.

(** *** Which class declaration is located *)

Lemma forest_count_length (nodes : list stmt) : length nodes <= forest_count nodes.
Proof.
  unfold forest_count. induction nodes as [ | node nodes IH]; simpl.
  - apply Nat.le_refl.
  - rewrite node_count_unfold. lia.
Qed.

Lemma walk_queue_first_class
    (expected : string) (class_body : list stmt)
    (before : list stmt) (fuel : nat) (queue : list stmt) :
  existsb (is_class_named expected) before = false ->
  length before < fuel ->
  find_class_def
    (walk_queue fuel (app before (ClassDef expected class_body :: queue))) expected
  = Some (expected, class_body).
Proof.
  revert fuel queue. induction before as [ | node before IH]; intros fuel queue Hnone Hfuel.
  - destruct fuel as [ | fuel]; [inversion Hfuel | ].
    simpl. now rewrite String.eqb_refl.
  - destruct fuel as [ | fuel]; [inversion Hfuel | ].
    simpl in Hnone. apply orb_false_iff in Hnone. destruct Hnone as [Hnode Hbefore].
    cbn [app walk_queue]. rewrite find_class_def_cons, Hnode.
    rewrite <- app_assoc. cbn [app].
    apply IH; [exact Hbefore | simpl in Hfuel; lia].
Qed.

(** X13: the walk is breadth first, so a class declared at the top level of
    the tree is located before any class of the same name nested in an
    earlier statement: the first top-level class of the expected name is the
    one transpiled. *)
Theorem X13_top_level_class_is_located
    (self : transpiler) (class_name : string) (class_body before after : list stmt) :
  existsb (is_class_named class_name) before = false ->
  let tree := Module_ (app before (ClassDef class_name class_body :: after)) in
  find_class_def (walk tree) class_name = Some (class_name, class_body)
  /\ fst (transpile_component self tree class_name)
     = Ok (fst (_generate_js_component (local_variables self)
                  (_analyze_component_class class_name class_body))).
Proof.
  intros Hnone tree.
  assert (Hfind : find_class_def (walk tree) class_name = Some (class_name, class_body)).
  { unfold walk, tree. cbn [module_body].
    apply walk_queue_first_class; [exact Hnone | ].
    pose proof (forest_count_length (app before (ClassDef class_name class_body :: after)))
      as Hlen.
    rewrite length_app in Hlen. simpl in Hlen. lia. }
  split; [exact Hfind | ].
  unfold transpile_component. rewrite Hfind.
  destruct (_generate_js_component _ _). reflexivity.
Qed.

Lemma X13_top_level_class_is_located_witness :
  let tree :=
    Module_ (app [ClassDef "Outer" [ClassDef "View" [FunctionDef "render" ["self"]
                                                   [Return (Some (Name "inner"))]]]]
                 (ClassDef "View" [] :: [])) in
  find_class_def (walk tree) "View" = Some ("View", [])
  /\ fst (transpile_component new_transpiler tree "View")
     = Ok (fst (_generate_js_component (local_variables new_transpiler)
                  (_analyze_component_class "View" []))).
Proof.
  exact (X13_top_level_class_is_located new_transpiler "View" []
           [ClassDef "Outer" [ClassDef "View" [FunctionDef "render" ["self"]
                                                 [Return (Some (Name "inner"))]]]]
           [] eq_refl).
Defined.

(** *** Builder calls *)

Lemma dict_set_fresh {K V : Type} (key_eqb : K -> K -> bool)
    (d : list (K * V)) (k : K) (v : V) :
  existsb (fun known => key_eqb known k) (dict_keys d) = false ->
  dict_set key_eqb d k v = app d [(k, v)].
Proof.
  unfold dict_keys. induction d as [ | [k' v'] d IH]; simpl; intros Hfresh.
  - reflexivity.
  - apply orb_false_iff in Hfresh. destruct Hfresh as [Hk Hd].
    rewrite Hk. now rewrite IH.
Qed.

Lemma props_fold_fresh (lv : scope) (keywords : list (option string * expr))
    (props : list (option string * string)) :
  names_fresh (dict_keys props) (map (fun kw => rename_prop (fst kw)) keywords) = true ->
  fold_left
    (fun (props : list (option string * string)) (keyword : option string * expr) =>
       dict_set prop_name_eqb props (rename_prop (fst keyword))
         (_transpile_prop_value lv (snd keyword)))
    keywords props
  = app props
      (map (fun kw : option string * expr =>
              (rename_prop (fst kw), _transpile_prop_value lv (snd kw)))
           keywords).
Proof.
  revert props. induction keywords as [ | kw keywords IH]; intros props Hfresh.
  - simpl. now rewrite app_nil_r.
  - cbn [map names_fresh] in Hfresh. apply andb_true_iff in Hfresh.
    destruct Hfresh as [Hkw Hrest]. apply negb_true_iff in Hkw.
    cbn [fold_left map]. rewrite (dict_set_fresh _ _ _ _ Hkw).
    rewrite IH.
    + now rewrite <- app_assoc.
    + unfold dict_keys in *. rewrite map_app. exact Hrest.
Qed.

(** X14: a call of a builder whose keyword names stay different after the
    renaming of the event names is emitted as [React.createElement] with the
    tag ([input] for [input_field]), then [null] or the properties in keyword
    order, then, only when there are positional arguments, the array of the
    children in order. *)
Theorem X14_builder_call_text
    (lv : scope) (tag : string) (args : list expr)
    (keywords : list (option string * expr)) :
  is_html_element tag = true ->
  names_fresh [] (map (fun kw => rename_prop (fst kw)) keywords) = true ->
  _transpile_element_expression lv (Call (Name tag) args keywords)
  = "React.createElement('"
      ++ (if String.eqb tag "input_field" then "input" else tag) ++ "', "
      ++ match keywords with
         | [] => "null"
         | _ => "{" ++ join ", " (map element_prop keywords) ++ "}"
         end
      ++ match args with
         | [] => ")"
         | _ => ", [" ++ join ", " (map element_child args) ++ "])"
         end.
Proof.
  intros Htag Hfresh. rewrite element_expression_call.
  unfold _transpile_element_call. rewrite Htag.
  assert (Hchildren :
    map (fun arg : expr =>
           match arg with
           | Constant (CStr s) => dquote ++ s ++ dquote
           | _ => _transpile_element_expression lv arg
           end) args
    = map element_child args).
  { apply map_ext. intros arg. unfold element_child.
    destruct arg as [[ | | | ] | | | | | | | | | ];
      solve [reflexivity | apply transpile_element_expression_scope]. }
  rewrite Hchildren.
  rewrite (props_fold_fresh lv keywords [] Hfresh). cbn [app].
  assert (Hprops :
    match
      map (fun kw : option string * expr =>
             (rename_prop (fst kw), _transpile_prop_value lv (snd kw))) keywords
    with
    | [] => "null"
    | _ :: _ =>
        _build_props_object
          (map (fun kw : option string * expr =>
                  (rename_prop (fst kw), _transpile_prop_value lv (snd kw))) keywords)
    end
    = match keywords with
      | [] => "null"
      | _ => "{" ++ join ", " (map element_prop keywords) ++ "}"
      end).
  { destruct keywords as [ | kw keywords]; [reflexivity | ].
    replace (map element_prop (kw :: keywords))
      with (map (fun kv : option string * string =>
                   let (key, value) := kv in
                   match key with Some s => s | None => "None" end ++ ": " ++ value)
              (map (fun kw : option string * expr =>
                      (rename_prop (fst kw), _transpile_prop_value lv (snd kw)))
                 (kw :: keywords))).
    - reflexivity.
    - rewrite map_map. apply map_ext. intros kw'. unfold element_prop. cbn [fst snd].
      now rewrite (transpile_prop_value_scope lv None). }
  rewrite Hprops.
  destruct args as [ | arg args]; [reflexivity | ].
  cbn [map]. rewrite !append_assoc_string. reflexivity.
Qed.

Lemma X14_builder_call_text_witness :
  _transpile_element_expression None
    (Call (Name "button") [Constant (CStr "Add")]
       [(Some "onclick", Attribute (Name "self") "increment");
        (Some "id", Constant (CStr "add"))])
  = "React.createElement('" ++ "button" ++ "', "
      ++ ("{" ++ join ", "
                   (map element_prop
                      [(Some "onclick", Attribute (Name "self") "increment");
                       (Some "id", Constant (CStr "add"))]) ++ "}")
      ++ (", [" ++ join ", " (map element_child [Constant (CStr "Add")]) ++ "])").
Proof.
  exact (X14_builder_call_text None "button" [Constant (CStr "Add")]
           [(Some "onclick", Attribute (Name "self") "increment");
            (Some "id", Constant (CStr "add"))]
           eq_refl eq_refl).
Defined.

(** The text of that call: the event name is renamed and the method
    reference loses its [self]. *)
Example button_with_handler_text :
  _transpile_element_expression None
    (Call (Name "button") [Constant (CStr "Add")]
       [(Some "onclick", Attribute (Name "self") "increment");
        (Some "id", Constant (CStr "add"))])
  = "React.createElement('button', {onClick: increment, id: " ++ dquote ++ "add" ++ dquote
      ++ "}, [" ++ dquote ++ "Add" ++ dquote ++ "])".
Proof. reflexivity. Qed.

(** X15: a keyword given under two names that the renaming makes equal (here
    [onclick] and [onClick]) leaves one property, at the place of the first
    and with the value of the second. *)
Theorem X15_renamed_keyword_collides
    (lv : scope) (tag : string) (args : list expr) (first second : expr) :
  _transpile_element_expression lv
    (Call (Name tag) args [(Some "onclick", first); (Some "onClick", second)])
  = _transpile_element_expression lv (Call (Name tag) args [(Some "onClick", second)]).
Proof.
  rewrite !element_expression_call. unfold _transpile_element_call.
  destruct (is_html_element tag); reflexivity.
Qed.

(** *** Ordinary calls *)

(** X16: a call on an attribute that is not [self.props.get] with two
    positional arguments is emitted as a method call on the transpiled
    target; for [self.props.get] with another number of arguments the text
    keeps the prefix [self.props], and keyword arguments are left out. *)
Theorem X16_method_call_text
    (lv : scope) (value : expr) (method : string) (args : list expr)
    (keywords : list (option string * expr)) :
  is_self_attr "props" value && String.eqb method "get" && (length args =? 2)%nat = false ->
  _transpile_expression lv (Call (Attribute value method) args keywords)
  = _transpile_expression lv value ++ "." ++ method ++ "("
      ++ join ", " (map (_transpile_expression lv) args) ++ ")".
Proof.
  intros Hplain. rewrite expression_call. unfold _transpile_function_call.
  rewrite length_map, Hplain. reflexivity.
Qed.

Lemma X16_method_call_text_witness :
  _transpile_expression None
    (Call (Attribute (Attribute (Name "self") "props") "get")
       [Constant (CStr "title")] [(Some "default", Constant (CInt 0))])
  = "self.props" ++ "." ++ "get" ++ "("
      ++ join ", " (map (_transpile_expression None) [Constant (CStr "title")]) ++ ")".
Proof.
  exact (X16_method_call_text None (Attribute (Name "self") "props") "get"
           [Constant (CStr "title")] [(Some "default", Constant (CInt 0))] eq_refl).
Defined.

(** *** The two printers of literals *)

(** X17: on expressions made of constants and dictionary literals the printer
    used for initial-state values and the expression transpiler give the
    same text. *)
Theorem X17_literal_printers_agree (lv : scope) (e : expr) :
  plain_literal e = true ->
  _ast_to_js_value e = _transpile_expression lv e.
Proof.
  induction e using expr_nested_ind; intros Hplain; try discriminate Hplain.
  - reflexivity.
  - cbn [_ast_to_js_value _transpile_expression]. unfold _transpile_dict_literal.
    do 3 f_equal. cbn [plain_literal] in Hplain.
    induction items as [ | [key value] items IHitems]; [reflexivity | ].
    cbn [forallb] in Hplain. apply andb_true_iff in Hplain.
    destruct Hplain as [Hkv Hrest]. apply andb_true_iff in Hkv.
    destruct Hkv as [Hkey Hvalue].
    inversion H as [ | kv items' [Hk Hv] Hitems]; subst.
    cbn [map]. f_equal; [ | now apply IHitems].
    cbn [fst snd] in *. rewrite (Hv Hvalue).
    destruct key as [key | ]; [ | reflexivity].
    cbn [transpile_optional]. now rewrite (Hk Hkey).
Qed.

Lemma X17_literal_printers_agree_witness :
  _ast_to_js_value
    (Dict [(Some (Constant (CStr "a")), Dict [(None, Constant (CBool true))])])
  = _transpile_expression None
      (Dict [(Some (Constant (CStr "a")), Dict [(None, Constant (CBool true))])]).
Proof.
  exact (X17_literal_printers_agree None
           (Dict [(Some (Constant (CStr "a")), Dict [(None, Constant (CBool true))])])
           eq_refl).
Defined.

(* ================================================================= *)
(** ** Properties of the run-time classes *)

(** *** [Element] *)

(** X18: whatever is passed for [children], the attribute of the element is
    a list; and building an element again from the attributes of an element
    gives that element back. *)
Theorem X18_element_children_is_list (tag props children : py_value) :
  (exists items, element_children (Element tag props children) = PList items)
  /\ Element (element_tag (Element tag props children))
             (element_props (Element tag props children))
             (element_children (Element tag props children))
     = Element tag props children.
Proof.
  unfold Element, py_or. split.
  - destruct (truthy children) eqn:Ht.
    + destruct children; cbn [element_children]; eauto.
    + cbn [element_children]. eauto.
  - cbn [element_tag element_props element_children].
    assert (Hprops : (if truthy (if truthy props then props else PDict [])
                      then (if truthy props then props else PDict [])
                      else PDict [])
                     = (if truthy props then props else PDict [])).
    { destruct (truthy props) eqn:Hp; [now rewrite Hp | reflexivity]. }
    rewrite Hprops. f_equal.
    destruct (truthy children) eqn:Hc.
    + destruct children as [value | items | entries | elements | t p c];
        try reflexivity.
      destruct items; [discriminate Hc | reflexivity].
    + reflexivity.
Qed.

(** X19: the builders hand their arguments to the element unchanged: the tag,
    the keyword arguments as properties and the children in order; a first
    argument [content] that is [None] is left out, any other one, the empty
    string and zero included, is the first child. *)
Theorem X19_builders_keep_their_arguments
    (tag : string) (content : py_value) (children : list py_value)
    (props : list (string * py_value)) :
  container_builder tag children props
  = PElement (PConst (CStr tag)) (kwargs props) (PList children)
  /\ content_builder tag content children props
     = PElement (PConst (CStr tag)) (kwargs props)
         (PList (app (content_list content) children))
  /\ void_builder tag props = PElement (PConst (CStr tag)) (kwargs props) (PList [])
  /\ content_only_builder tag content props
     = PElement (PConst (CStr tag)) (kwargs props) (PList (content_list content)).
Proof.
  assert (Hprops : py_or (kwargs props) (PDict []) = kwargs props).
  { unfold py_or, kwargs. destruct props; reflexivity. }
  assert (Hlist : forall items,
             match py_or (PList items) (PList []) with
             | PList _ => py_or (PList items) (PList [])
             | _ => PList [py_or (PList items) (PList [])]
             end = PList items).
  { intros items. unfold py_or. destruct items; reflexivity. }
  unfold container_builder, content_builder, void_builder, content_only_builder, Element.
  rewrite Hprops, !Hlist. repeat split; reflexivity.
Qed.

(** X20: every name of the transpiler's registry is a builder function of
    the module, and a call of it without arguments is emitted with the tag
    that builder gives its element; conversely every builder function is in
    the registry. *)
Theorem X20_registry_matches_builders (element_name : string) :
  is_html_element element_name = true ->
  (exists tag,
      In (element_name, PConst (CStr tag)) builder_tags
      /\ forall lv,
           _transpile_element_expression lv (Call (Name element_name) [] [])
           = "React.createElement('" ++ tag ++ "', null)")
  /\ forallb (fun entry : string * py_value => is_html_element (fst entry)) builder_tags
     = true.
Proof.
  intros Hreg. split; [ | reflexivity].
  unfold is_html_element in Hreg. apply existsb_exists in Hreg.
  destruct Hreg as [known [Hin Heq]]. apply String.eqb_eq in Heq. subst known.
  unfold html_elements in Hin. cbn [In] in Hin.
  repeat (destruct Hin as [<- | Hin];
          [eexists; split; [cbn; tauto | intros lv; reflexivity] | ]).
  contradiction.
Qed.

Lemma X20_registry_matches_builders_witness :
  (exists tag,
      In ("input_field", PConst (CStr tag)) builder_tags
      /\ forall lv,
           _transpile_element_expression lv (Call (Name "input_field") [] [])
           = "React.createElement('" ++ tag ++ "', null)")
  /\ forallb (fun entry : string * py_value => is_html_element (fst entry)) builder_tags
     = true.
Proof.
  exact (X20_registry_matches_builders "input_field" eq_refl).
Defined.

(** *** [Component.set_state] *)

(** Keys that a dictionary treats as equal: [True] as [1], [False] as [0]. *)
Lemma py_eqb_true_iff (a b : constant) :
  py_eqb a b = true <->
  match a, b with
  | CStr s, CStr t => s = t
  | CInt n, CInt m => n = m
  | CInt n, CBool c => n = (if c then 1 else 0)%Z
  | CBool c, CInt n => (if c then 1 else 0)%Z = n
  | CBool c, CBool c' => c = c'
  | CNone, CNone => True
  | _, _ => False
  end.
Proof.
  destruct a, b; simpl; try (split; [discriminate | contradiction]).
  - apply String.eqb_eq.
  - apply Z.eqb_eq.
  - apply Z.eqb_eq.
  - apply Z.eqb_eq.
  - apply Bool.eqb_true_iff.
  - tauto.
Qed.

Lemma py_eqb_congruent (a b c : constant) :
  py_eqb a b = true -> py_eqb a c = py_eqb b c.
Proof.
  intros Hab. apply py_eqb_true_iff in Hab.
  destruct (py_eqb a c) eqn:Hac, (py_eqb b c) eqn:Hbc; try reflexivity; exfalso.
  - apply py_eqb_true_iff in Hac.
    assert (Hgoal : py_eqb b c = true); [ | congruence].
    apply py_eqb_true_iff.
    destruct a, b, c; try contradiction; try congruence;
      repeat match goal with b : bool |- _ => destruct b end; simpl in *; lia.
  - apply py_eqb_true_iff in Hbc.
    assert (Hgoal : py_eqb a c = true); [ | congruence].
    apply py_eqb_true_iff.
    destruct a, b, c; try contradiction; try congruence;
      repeat match goal with b : bool |- _ => destruct b end; simpl in *; lia.
Qed.

Lemma py_eqb_symmetric (a b : constant) : py_eqb a b = py_eqb b a.
Proof.
  destruct a, b; simpl; try reflexivity.
  - apply String.eqb_sym.
  - apply Z.eqb_sym.
  - apply Z.eqb_sym.
  - apply Z.eqb_sym.
  - destruct b0, b; reflexivity.
Qed.

Lemma py_dict_get_set (d : list (constant * py_value)) (k key : constant) (v : py_value) :
  dict_get py_eqb (dict_set py_eqb d k v) key
  = if py_eqb k key then Some v else dict_get py_eqb d key.
Proof.
  induction d as [ | [k' v'] d IH]; simpl.
  - reflexivity.
  - destruct (py_eqb k' k) eqn:Hk; simpl.
    + rewrite (py_eqb_congruent k' k key Hk).
      destruct (py_eqb k key); reflexivity.
    + rewrite IH. destruct (py_eqb k' key) eqn:Hk'; [ | reflexivity].
      destruct (py_eqb k key) eqn:Hkey; [ | reflexivity].
      rewrite py_eqb_symmetric in Hkey.
      rewrite (py_eqb_symmetric k' key) in Hk'.
      rewrite <- (py_eqb_congruent key k' k Hk'), py_eqb_symmetric in Hk.
      rewrite (py_eqb_symmetric k key) in Hk. congruence.
Qed.

Lemma dict_update_lookup (other d : list (constant * py_value)) (key : constant) :
  dict_get py_eqb (dict_update d other) key
  = match dict_get py_eqb (rev other) key with
    | Some v => Some v
    | None => dict_get py_eqb d key
    end.
Proof.
  unfold dict_update.
  induction other as [ | [k v] other IH] using rev_ind.
  - reflexivity.
  - rewrite fold_left_app, rev_app_distr. cbn [fold_left rev app dict_get fst snd].
    rewrite py_dict_get_set, IH.
    destruct (py_eqb k key); reflexivity.
Qed.

(** X21: on a component whose state is a dictionary, [set_state] with a
    dictionary returns, keeps the properties, and merges: a key of the
    argument reads as the argument gives it (its last entry), every other
    key reads as before. *)
Theorem X21_set_state_merges
    (self : component) (d other : list (constant * py_value)) (key : constant) :
  comp_state self = PDict d ->
  exists self',
    set_state self (PDict other) = Returns self'
    /\ comp_props self' = comp_props self
    /\ state_lookup self' key
       = match dict_get py_eqb (rev other) key with
         | Some v => Some v
         | None => state_lookup self key
         end.
Proof.
  intros Hstate. unfold set_state, state_lookup. rewrite Hstate.
  eexists. split; [reflexivity | split; [reflexivity | ]].
  cbn [comp_state]. apply dict_update_lookup.
Qed.

Lemma X21_set_state_merges_witness :
  exists self',
    set_state (Component py_none) (PDict [(CStr "count", PConst (CInt 1))]) = Returns self'
    /\ comp_props self' = comp_props (Component py_none)
    /\ state_lookup self' (CStr "count")
       = match dict_get py_eqb (rev [(CStr "count", PConst (CInt 1))]) (CStr "count") with
         | Some v => Some v
         | None => state_lookup (Component py_none) (CStr "count")
         end.
Proof.
  exact (X21_set_state_merges (Component py_none) []
           [(CStr "count", PConst (CInt 1))] (CStr "count") eq_refl).
Defined.

(* ================================================================= *)
(** ** Properties of the analyzer *)

Lemma analyze_fold_methods_keys (body : list stmt) (info : component_info) :
  dict_keys (methods (fold_left analyze_node body info))
  = fold_left note_name
      (flat_map (fun node => match node with
                             | FunctionDef node_name _ _ => [node_name]
                             | _ => []
                             end) body)
      (dict_keys (methods info)).
Proof.
  revert info. induction body as [ | node body IH]; intros info.
  - reflexivity.
  - cbn [fold_left flat_map]. rewrite IH.
    destruct node as [ | node_name args fbody | | | | ]; try reflexivity.
    cbn [app fold_left]. f_equal.
    unfold analyze_node.
    destruct (String.eqb node_name "__init__");
      [ | destruct (String.eqb node_name "render")];
      cbn [methods]; rewrite dict_set_keys; reflexivity.
Qed.

(** X23: the descriptor lists each method name once, in the order of the
    first definition of the name in the class body; statements of the class
    body that are no method definitions add nothing. *)
Theorem X23_methods_in_declaration_order (class_name : string) (class_body : list stmt) :
  dict_keys (methods (_analyze_component_class class_name class_body))
  = fold_left note_name
      (flat_map (fun node => match node with
                             | FunctionDef node_name _ _ => [node_name]
                             | _ => []
                             end) class_body)
      []
  /\ name (_analyze_component_class class_name class_body) = class_name.
Proof.
  unfold _analyze_component_class. split.
  - now rewrite analyze_fold_methods_keys.
  - now rewrite analyze_fold_name.
Qed.

(** X24: when [render] is defined more than once in a class, the last
    definition is the render method of the descriptor, and the function
    returns what that definition returns. *)
Theorem X24_last_render_definition_wins
    (lv : scope) (class_name : string) (before after : list stmt)
    (args : list string) (render_body : list stmt) :
  existsb (is_method_named "render") after = false ->
  let info :=
    _analyze_component_class class_name
      (app before (FunctionDef "render" args render_body :: after)) in
  render_method info = Some (_analyze_method "render" args render_body)
  /\ exists lines,
       fst (_generate_js_component lv info)
       = join nl
           (app lines
              ["  return " ++ fst (_transpile_render_method None render_body) ++ ";"; "}"]).
Proof.
  intros Hafter info.
  assert (Hrender : render_method info = Some (_analyze_method "render" args render_body)).
  { unfold info, _analyze_component_class.
    rewrite fold_left_app. cbn [fold_left].
    rewrite (analyze_fold_no_render _ _ Hafter). reflexivity. }
  split; [exact Hrender | ].
  unfold _generate_js_component. rewrite Hrender. cbn [method_body _analyze_method].
  rewrite (transpile_render_method_scope lv None).
  destruct (_transpile_render_method None render_body) as [render_js locals'].
  eexists. reflexivity.
Qed.

Lemma X24_last_render_definition_wins_witness :
  let info :=
    _analyze_component_class "View"
      (app [FunctionDef "render" ["self"] [Return (Some (Name "first"))]]
           (FunctionDef "render" ["self"] [Return (Some (Name "second"))] :: [])) in
  render_method info
  = Some (_analyze_method "render" ["self"] [Return (Some (Name "second"))])
  /\ exists lines,
       fst (_generate_js_component None info)
       = join nl
           (app lines
              ["  return "
                 ++ fst (_transpile_render_method None [Return (Some (Name "second"))])
                 ++ ";"; "}"]).
Proof.
  exact (X24_last_render_definition_wins None "View"
           [FunctionDef "render" ["self"] [Return (Some (Name "first"))]] []
           ["self"] [Return (Some (Name "second"))] eq_refl).
Defined.

(* ================================================================= *)
(** ** Closed forms of the render body and of the registry *)

(** *** Render bodies and their return statements (C10) *)

Lemma render_fold_declarations (body : list stmt) (st : render_loop) :
  js_statements (fold_left render_step body st)
  = app (js_statements st) (local_declarations body).
Proof.
  unfold local_declarations. revert st.
  induction body as [ | s body IH]; intros st.
  - simpl. now rewrite app_nil_r.
  - cbn [fold_left flat_map]. rewrite IH.
    destruct s as [ | | targets value | | | ]; try reflexivity.
    destruct targets as [ | target [ | target' targets]]; try reflexivity;
      destruct target; try reflexivity.
    cbn [render_step _transpile_render_assignment js_statements].
    unfold const_declaration. cbn [fst snd].
    rewrite (transpile_expression_scope (Some (loop_locals st)) None).
    now rewrite <- app_assoc.
Qed.

Lemma render_fold_last_return
    (pre post : list stmt) (value : option expr) (st : render_loop) :
  existsb is_return post = false ->
  return_statement (fold_left render_step (app pre (Return value :: post)) st)
  = Some value.
Proof.
  intros Hpost. rewrite fold_left_app. cbn [fold_left].
  rewrite (render_fold_no_return _ _ Hpost). reflexivity.
Qed.

Lemma local_declarations_skip_return (pre post : list stmt) (value : option expr) :
  local_declarations (app pre (Return value :: post)) = local_declarations (app pre post).
Proof. unfold local_declarations. rewrite !flat_map_app. reflexivity. Qed.

(** C10: a render body without a return statement gives [null] and the
    function ends with [return null;], with nothing of the assignments of the
    body in the output.  Of several return statements only the last one is
    transpiled: the text is the element expression of the value of the last
    return, alone when the body has no assignment to a single name, and
    otherwise after the declarations of those assignments inside an
    immediately invoked function; the values of the earlier returns appear
    nowhere, and dropping those returns changes neither the text nor the
    scope left. *)
Theorem C10_render_return_statements
    (lv : scope) (info : component_info) (rm : method_info)
    (pre post : list stmt) (value : option expr) :
  render_method info = Some rm ->
  existsb is_return (method_body rm) = false ->
  existsb is_return post = false ->
  fst (_transpile_render_method lv (method_body rm)) = "null"
  /\ fst (_generate_js_component lv info)
     = join nl
         (app (app (app ["function " ++ name info ++ "(props) {"]
                        (state_lines (initial_state info)))
                   (method_lines lv (methods info)))
              ["  return null;"; "}"])
  /\ fst (_transpile_render_method lv (app pre (Return value :: post)))
     = match local_declarations (app pre post) with
       | [] => transpile_element_optional None value
       | declarations =>
           "(() => { " ++ join "; " declarations ++ "; return "
             ++ transpile_element_optional None value ++ "; })()"
       end
  /\ _transpile_render_method lv (app pre (Return value :: post))
     = _transpile_render_method lv
         (app (filter (fun s => negb (is_return s)) pre) (Return value :: post)).
Proof.
  intros Hrm Hnone Hpost.
  assert (Hnull : _transpile_render_method lv (method_body rm)
                  = ("null",
                     Some (loop_locals
                             (fold_left render_step (method_body rm)
                                {| loop_locals := []; js_statements := [];
                                   return_statement := None |})))).
  { unfold _transpile_render_method. now rewrite render_fold_no_return. }
  split; [now rewrite Hnull | split; [ | split]].
  - unfold _generate_js_component. rewrite Hrm, Hnull. reflexivity.
  - unfold _transpile_render_method.
    rewrite (render_fold_last_return pre post value _ Hpost).
    rewrite render_fold_declarations. cbn [js_statements app].
    rewrite local_declarations_skip_return.
    destruct (local_declarations (app pre post)) as [ | declaration declarations];
      cbn [fst]; now rewrite (transpile_element_optional_scope _ None).
  - unfold _transpile_render_method. rewrite !fold_left_app. cbn [fold_left].
    set (st0 := {| loop_locals := []; js_statements := []; return_statement := None |}).
    destruct (render_fold_drop_returns pre st0 st0 eq_refl eq_refl) as [Hl Hj].
    assert (Hstep : render_step (fold_left render_step pre st0) (Return value)
                    = render_step
                        (fold_left render_step (filter (fun s => negb (is_return s)) pre) st0)
                        (Return value)).
    { simpl. now rewrite Hl, Hj. }
    now rewrite Hstep.
Qed.

Lemma C10_render_return_statements_witness :
  fst (_transpile_render_method None [Assign [Name "title"] (Constant (CStr "Hi"))]) = "null"
  /\ fst (_generate_js_component None
            (_analyze_component_class "Quiet"
               [FunctionDef "render" ["self"]
                  [Assign [Name "title"] (Constant (CStr "Hi"))]]))
     = "function Quiet(props) {" ++ nl ++ "  return null;" ++ nl ++ "}"
  /\ fst (_transpile_render_method None
            (app [Return (Some (Name "first")); Assign [Name "x"] (Constant (CInt 1))]
                 (Return (Some (Name "last")) :: [])))
     = "(() => { const x = 1; return last; })()"
  /\ _transpile_render_method None
       (app [Return (Some (Name "first")); Assign [Name "x"] (Constant (CInt 1))]
            (Return (Some (Name "last")) :: []))
     = _transpile_render_method None
         (app [Assign [Name "x"] (Constant (CInt 1))] (Return (Some (Name "last")) :: [])).
Proof.
  exact (C10_render_return_statements None
           (_analyze_component_class "Quiet"
              [FunctionDef "render" ["self"]
                 [Assign [Name "title"] (Constant (CStr "Hi"))]])
           (_analyze_method "render" ["self"] [Assign [Name "title"] (Constant (CStr "Hi"))])
           [Return (Some (Name "first")); Assign [Name "x"] (Constant (CInt 1))] []
           (Some (Name "last")) eq_refl eq_refl eq_refl).
Defined.

(** Without any assignment the last return is emitted directly, and the
    earlier one leaves nothing. *)
Example last_return_alone :
  fst (_transpile_render_method None
         [Return (Some (Call (Name "div") [] []));
          Return (Some (Call (Name "p") [Constant (CStr "x")] []))])
  = "React.createElement('p', null, [" ++ dquote ++ "x" ++ dquote ++ "])".
Proof. reflexivity. Qed.

(** *** The registry and the aggregated module (C8) *)

Lemma transpile_all_app (a b : list (module_ * string)) (self : transpiler) :
  transpile_all self (app a b)
  = (app (fst (transpile_all self a))
         (fst (transpile_all (snd (transpile_all self a)) b)),
     snd (transpile_all (snd (transpile_all self a)) b)).
Proof.
  revert self. induction a as [ | [tree class_name] a IH]; intros self.
  - cbn [app transpile_all fst snd]. now destruct (transpile_all self b).
  - cbn [app]. rewrite !transpile_all_cons, IH. reflexivity.
Qed.

Lemma transpile_all_length (classes : list (module_ * string)) (self : transpiler) :
  length (fst (transpile_all self classes)) = length classes.
Proof.
  revert self. induction classes as [ | [tree class_name] classes IH]; intros self.
  - reflexivity.
  - rewrite transpile_all_cons. cbn [fst length]. now rewrite IH.
Qed.

Lemma map_fst_combine_same_length {A B : Type} (l : list A) (l' : list B) :
  length l = length l' -> map fst (combine l l') = l.
Proof.
  revert l'. induction l as [ | x l IH]; intros [ | y l'] Hlen; try discriminate Hlen.
  - reflexivity.
  - simpl. f_equal. apply IH. now injection Hlen.
Qed.

(** A run leaves the entry of a name that none of its calls transpiles. *)
Lemma transpile_all_keeps_other
    (run : list (module_ * string)) (self : transpiler) (other : string) :
  existsb (String.eqb other) (map snd run) = false ->
  dict_get String.eqb (components (snd (transpile_all self run))) other
  = dict_get String.eqb (components self) other.
Proof.
  revert self. induction run as [ | [tree class_name] run IH]; intros self Hother.
  - reflexivity.
  - cbn [map snd existsb] in Hother. apply orb_false_iff in Hother.
    destruct Hother as [Hname Hrun].
    rewrite transpile_all_cons. cbn [snd]. rewrite (IH _ Hrun).
    destruct (is_ok (fst (transpile_component self tree class_name))) eqn:Hok.
    + rewrite (transpile_component_registers _ _ _ Hok). unfold register. cbn [fst snd].
      now apply dict_get_set_other.
    + now rewrite (transpile_component_failed _ _ _ Hok).
Qed.

Lemma register_fold_new (entries registry : list (string * string)) :
  names_new (dict_keys registry) (map fst entries) = true ->
  fold_left register entries registry = app registry entries.
Proof.
  revert registry. induction entries as [ | [class_name js_code] entries IH];
    intros registry Hnew.
  - simpl. now rewrite app_nil_r.
  - cbn [map fst names_new] in Hnew. apply andb_true_iff in Hnew.
    destruct Hnew as [Hname Hrest]. apply negb_true_iff in Hname.
    cbn [fold_left]. unfold register at 2. cbn [fst snd].
    rewrite (dict_set_fresh String.eqb registry class_name js_code Hname).
    rewrite IH.
    + now rewrite <- app_assoc.
    + unfold dict_keys in *. rewrite map_app. exact Hrest.
Qed.

(** C8, as the specification states it, fails: in the run that transpiles a
    class [A], a class [B] and then another class named [A], every call
    returns, yet the last call does not append to the registry but replaces
    the text stored under [A], and the module lists the text transpiled last
    before the text of [B]. *)
Lemma C8_counterexample :
  forallb is_ok
    (fst (transpile_all new_transpiler
            [(class_tree "A" [], "A"); (class_tree "B" [], "B");
             (class_tree "A" [FunctionDef "render" ["self"] [Return (Some (Name "later"))]],
              "A")]))
  = true
  /\ ~ (exists added,
          components
            (snd (transpile_all new_transpiler
                    [(class_tree "A" [], "A"); (class_tree "B" [], "B");
                     (class_tree "A"
                        [FunctionDef "render" ["self"] [Return (Some (Name "later"))]],
                      "A")]))
          = app (components
                   (snd (transpile_all new_transpiler
                           [(class_tree "A" [], "A"); (class_tree "B" [], "B")])))
                added)
  /\ dict_values
       (components
          (snd (transpile_all new_transpiler
                  [(class_tree "A" [], "A"); (class_tree "B" [], "B");
                   (class_tree "A"
                      [FunctionDef "render" ["self"] [Return (Some (Name "later"))]],
                    "A")])))
     = [code_of (fst (transpile_component new_transpiler
                        (class_tree "A"
                           [FunctionDef "render" ["self"] [Return (Some (Name "later"))]])
                        "A"));
        code_of (fst (transpile_component new_transpiler (class_tree "B" [] ) "B"))].
Proof.
  split; [reflexivity | split; [ | reflexivity]].
  intros [added Hadded]. vm_compute in Hadded. discriminate Hadded.
Qed.

(** C8 (amended): the registry is a dictionary keyed by class name.  Over a
    run of successful calls it is what storing each returned text under its
    class name gives, in call order: its keys are append-only, the class
    names in the order of their first transpilation after the keys it held
    before; the text under a name is the text of the last call for that name,
    which replaces an earlier one in place; when the names of the run are
    new and pairwise different the registry is the earlier registry followed
    by the entries of the run in call order; and the module text is the
    header comment, an empty line, then each text followed by an empty line,
    in registry order. *)
Theorem C8_registry_order (classes : list (module_ * string)) (self : transpiler) :
  forallb is_ok (fst (transpile_all self classes)) = true ->
  let results := fst (transpile_all self classes) in
  let final := snd (transpile_all self classes) in
  components final
  = fold_left register (combine (map snd classes) (map code_of results)) (components self)
  /\ dict_keys (components final)
     = fold_left note_name (map snd classes) (dict_keys (components self))
  /\ (exists added, dict_keys (components final) = app (dict_keys (components self)) added)
  /\ (components final <> [] ->
      generate_complete_js final
      = join nl ("// PyReact - Transpiled Components" :: ""
                 :: flat_map (fun entry : string * string => [snd entry; ""])
                      (components final)))
  /\ (forall before tree class_name after,
         classes = app before ((tree, class_name) :: after) ->
         existsb (String.eqb class_name) (map snd after) = false ->
         dict_get String.eqb (components final) class_name
         = Some (code_of (fst (transpile_component new_transpiler tree class_name))))
  /\ (names_new (dict_keys (components self)) (map snd classes) = true ->
      components final
      = app (components self) (combine (map snd classes) (map code_of results))).
Proof.
  intros Hok results final.
  assert (Hregistry :
    components final
    = fold_left register (combine (map snd classes) (map code_of results)) (components self)
    /\ dict_keys (components final)
       = fold_left note_name (map snd classes) (dict_keys (components self))).
  { subst results final. revert self Hok.
    induction classes as [ | [tree class_name] classes IH]; intros self Hok.
    - split; reflexivity.
    - rewrite transpile_all_cons in *. cbn [fst snd] in *.
      cbn [forallb] in Hok. apply andb_true_iff in Hok. destruct Hok as [Hfirst Hrest].
      destruct (IH _ Hrest) as [IH1 IH2].
      cbn [map combine fold_left].
      pose proof (transpile_component_registers _ _ _ Hfirst) as Hstep.
      split.
      + rewrite IH1, Hstep. reflexivity.
      + rewrite IH2, Hstep. unfold register. cbn [fst snd].
        now rewrite dict_keys_set. }
  destruct Hregistry as [H1 H2].
  split; [exact H1 | split; [exact H2 | split; [ | split; [ | split]]]].
  - rewrite H2. apply note_name_extends.
  - apply generate_complete_js_parts.
  - intros before tree class_name after Hsplit Hlast.
    subst results final. subst classes.
    rewrite transpile_all_app in Hok. cbn [fst] in Hok.
    rewrite forallb_app in Hok. apply andb_true_iff in Hok. destruct Hok as [_ Hok].
    rewrite transpile_all_app. cbn [snd].
    rewrite transpile_all_cons in *. cbn [fst snd] in *.
    cbn [forallb] in Hok. apply andb_true_iff in Hok. destruct Hok as [Hcall _].
    rewrite (transpile_all_keeps_other _ _ _ Hlast).
    rewrite (transpile_component_registers _ _ _ Hcall). unfold register. cbn [fst snd].
    rewrite dict_get_set_same. do 2 f_equal.
    apply transpile_component_text_scope.
  - intros Hnew. rewrite H1. apply register_fold_new.
    rewrite map_fst_combine_same_length; [exact Hnew | ].
    subst results. now rewrite !length_map, transpile_all_length.
Qed.

Lemma C8_registry_order_witness :
  dict_keys
    (components
       (snd (transpile_all new_transpiler
               [(class_tree "Zeta" [FunctionDef "render" ["self"] [Return (Some (Name "z"))]],
                 "Zeta");
                (class_tree "Alpha" [], "Alpha");
                (class_tree "Zeta" [FunctionDef "render" ["self"] [Return (Some (Name "z"))]],
                 "Zeta")])))
  = ["Zeta"; "Alpha"].
Proof.
  exact (proj1 (proj2
           (C8_registry_order
              [(class_tree "Zeta" [FunctionDef "render" ["self"] [Return (Some (Name "z"))]],
                "Zeta");
               (class_tree "Alpha" [], "Alpha");
               (class_tree "Zeta" [FunctionDef "render" ["self"] [Return (Some (Name "z"))]],
                "Zeta")]
              new_transpiler eq_refl))).
Defined.

(* ================================================================= *)
(** ** Which entries the initial state holds *)

Lemma constant_dict_get_set {V : Type}
    (d : list (constant * V)) (k key : constant) (v : V) :
  dict_get py_eqb (dict_set py_eqb d k v) key
  = if py_eqb k key then Some v else dict_get py_eqb d key.
Proof.
  induction d as [ | [k' v'] d IH]; simpl.
  - reflexivity.
  - destruct (py_eqb k' k) eqn:Hk; simpl.
    + rewrite (py_eqb_congruent k' k key Hk).
      destruct (py_eqb k key); reflexivity.
    + rewrite IH. destruct (py_eqb k' key) eqn:Hk'; [ | reflexivity].
      destruct (py_eqb k key) eqn:Hkey; [ | reflexivity].
      rewrite py_eqb_symmetric in Hkey.
      rewrite (py_eqb_symmetric k' key) in Hk'.
      rewrite <- (py_eqb_congruent key k' k Hk'), py_eqb_symmetric in Hk.
      rewrite (py_eqb_symmetric k key) in Hk. congruence.
Qed.

Lemma store_fold_lookup {V : Type}
    (entries d : list (constant * V)) (key : constant) :
  dict_get py_eqb
    (fold_left (fun d kv => dict_set py_eqb d (fst kv) (snd kv)) entries d) key
  = match dict_get py_eqb (rev entries) key with
    | Some v => Some v
    | None => dict_get py_eqb d key
    end.
Proof.
  induction entries as [ | [k v] entries IH] using rev_ind.
  - reflexivity.
  - rewrite fold_left_app, rev_app_distr. cbn [fold_left rev app dict_get fst snd].
    rewrite constant_dict_get_set, IH.
    destruct (py_eqb k key); reflexivity.
Qed.

Lemma store_fold_keys {V : Type} (entries d : list (constant * V)) :
  dict_keys (fold_left (fun d kv => dict_set py_eqb d (fst kv) (snd kv)) entries d)
  = fold_left note_key (map fst entries) (dict_keys d).
Proof.
  revert d. induction entries as [ | [k v] entries IH]; intros d.
  - reflexivity.
  - cbn [fold_left map fst snd]. rewrite IH. f_equal.
    rewrite dict_set_keys. reflexivity.
Qed.

Lemma fold_left_flat_map {A B C : Type} (f : A -> C -> A) (g : B -> list C)
    (l : list B) (a : A) :
  fold_left f (flat_map g l) a = fold_left (fun a x => fold_left f (g x) a) l a.
Proof.
  revert a. induction l as [ | x l IH]; intros a; simpl.
  - reflexivity.
  - now rewrite fold_left_app, IH.
Qed.

(** The three loops of extraction store the written entries one by one. *)
Lemma extract_initial_state_entries (init_body : list stmt) :
  _extract_initial_state init_body
  = fold_left (fun d kv => dict_set py_eqb d (fst kv) (snd kv))
      (state_entries init_body) [].
Proof.
  unfold _extract_initial_state, state_entries.
  rewrite fold_left_flat_map. apply fold_left_pointwise.
  intros st s. destruct s as [ | | targets value | | | ]; try reflexivity.
  cbn [extract_stmt]. unfold extract_targets.
  destruct value;
    try (induction targets as [ | target targets IH] in st |- *; simpl;
         [reflexivity | destruct (is_self_attr "state" target); exact (IH st)]).
  rewrite fold_left_flat_map. apply fold_left_pointwise.
  intros st' target. destruct (is_self_attr "state" target); [ | reflexivity].
  unfold extract_items, item_entries.
  rewrite fold_left_flat_map. apply fold_left_pointwise.
  intros st'' [[key | ] item]; [ | reflexivity].
  destruct key; try reflexivity.
  destruct item; reflexivity.
Qed.

(** X8: the extracted initial state is the dictionary of the entries the
    constructor writes, in the order written: a key reads as the last entry
    written for it, a key written again keeps the place of its first
    occurrence ([1] after [True] is the same key), and no two keys are
    equal. *)
Theorem X8_initial_state_entries (init_body : list stmt) (key : constant) :
  dict_get py_eqb (_extract_initial_state init_body) key
  = dict_get py_eqb (rev (state_entries init_body)) key
  /\ dict_keys (_extract_initial_state init_body)
     = fold_left note_key (map fst (state_entries init_body)) []
  /\ keys_distinct py_eqb (dict_keys (_extract_initial_state init_body)).
Proof.
  rewrite extract_initial_state_entries. split; [ | split].
  - rewrite store_fold_lookup. cbn [dict_get].
    destruct (dict_get py_eqb (rev (state_entries init_body)) key); reflexivity.
  - apply store_fold_keys.
  - apply (fold_left_invariant (fun st => keys_distinct py_eqb (dict_keys st))).
    + intros st kv Hst. now apply dict_set_keys_distinct.
    + constructor.
Qed.

(** A key written three times, the second time as [True] for [1]. *)
Example initial_state_rewritten_key :
  _extract_initial_state
    [Assign [Attribute (Name "self") "state"]
       (Dict [(Some (Constant (CInt 1)), Constant (CStr "a"));
              (Some (Constant (CStr "n")), Constant (CInt 0));
              (Some (Constant (CBool true)), Constant (CStr "b"))]);
     Assign [Attribute (Name "self") "state"]
       (Dict [(Some (Constant (CInt 1)), Constant (CStr "c"))])]
  = [(CInt 1, CStr "c"); (CStr "n", CInt 0)].
Proof. reflexivity. Qed.

(* ================================================================= *)
(** ** [Component.set_state] on a state without [update] *)

(** X22: [set_state] with an argument that is no dictionary and has no
    [update] method (a string, a number, [None], a list, an element) replaces
    the state by it, and from then on [set_state] with a dictionary raises
    [AttributeError] naming the type of the state. *)
Theorem X22_set_state_replaces_then_fails
    (self : component) (new_state : py_value) (other : list (constant * py_value)) :
  has_update new_state = false ->
  exists self',
    set_state self new_state = Returns self'
    /\ comp_state self' = new_state
    /\ set_state self' (PDict other)
       = AttributeError ("'" ++ type_name new_state ++ "' object has no attribute 'update'").
Proof.
  intros Hnew.
  destruct new_state as [value | items | entries | elements | t p c];
    try discriminate Hnew;
    (eexists; split; [reflexivity | split; reflexivity]).
Qed.

Lemma X22_set_state_replaces_then_fails_witness :
  exists self',
    set_state (Component py_none) (PList []) = Returns self'
    /\ comp_state self' = PList []
    /\ set_state self' (PDict [(CStr "count", PConst (CInt 1))])
       = AttributeError ("'" ++ type_name (PList []) ++ "' object has no attribute 'update'").
Proof.
  exact (X22_set_state_replaces_then_fails (Component py_none) (PList [])
           [(CStr "count", PConst (CInt 1))] eq_refl).
Defined.

(** A state replaced by a set has an [update] method: the later call returns
    and adds the keys of the dictionary to the set. *)
Example set_state_on_a_set :
  match set_state (Component py_none) (PSet [CInt 1; CInt 2]) with
  | Returns self' => set_state self' (PDict [(CStr "a", PConst (CInt 1))])
  | failure => failure
  end
  = Returns {| comp_props := PDict []; comp_state := PSet [CInt 1; CInt 2; CStr "a"];
               comp_children := PList []; comp_element := py_none |}.
Proof. reflexivity. Qed.
